(** * http-echo: the handlers, the access logger and the start-up checks of main.go

    A shallow embedding of [main.go].  The Go packages the program calls
    ([fmt], [time], [os], [log], [net/http], and [path], which the mux of
    net/http uses to clean the path of a request) appear as modules of the
    same name that hold a model of the functions the program uses; the program
    itself ([httpEcho], [httpHealth], [withAppHeaders], [metaResponseWriter],
    [httpLog], [main]) is translated function by function after them.

    Go values are represented as follows.
    - [string]        : [string] (a sequence of 8-bit characters, as in Go);
    - [[]byte]        : [list byte];
    - [int], [int64]  : [Z] (wrap-around is written out where the code
                        computes, see [time.Sub]);
    - [error]         : [option string], [None] being [nil];
    - [map[string]..] : [gmap string _];
    - an object reached through a pointer or an interface is passed in and
      returned (explicit state passing);
    - a panic is an [Outcome] of its own, so that deferred code can be run
      on the way out. *)

From Stdlib Require Import ZArith Lia List String Ascii DecimalString.
From Stdlib.Strings Require Import Byte.
From stdpp Require Import base gmap strings list.

Local Open Scope Z_scope.

(** ** Characters that a Rocq string literal cannot hold *)

Definition NL : string := String "010"%char EmptyString.   (* "\n" *)
Definition DQ : string := String "034"%char EmptyString.   (* the double quote *)

Definition error : Type := option string.

(** [len(b)] for a slice and for a string. *)
Definition len {A : Type} (b : list A) : Z := Z.of_nat (List.length b).
Definition len_string (s : string) : Z := Z.of_nat (String.length s).

(** The conversion [[]byte(s)]. *)
Definition bytes (s : string) : list byte := list_byte_of_string s.

(** [strings.Contains], as a proposition. *)
Definition contains (s sub : string) : Prop :=
  exists pre post, s = pre +:+ sub +:+ post.

(** [s[len(s)-1]], when [s] is not empty, and [s[0]]. *)
Fixpoint lastByte (s : string) : option ascii :=
  match s with
  | EmptyString => None
  | String c EmptyString => Some c
  | String _ rest => lastByte rest
  end.

Definition firstByte (s : string) : option ascii :=
  match s with
  | EmptyString => None
  | String c _ => Some c
  end.

Definition byteIs (c : ascii) (b : option ascii) : bool :=
  match b with
  | Some c' => Ascii.eqb c' c
  | None => false
  end.

(** ** Package time *)

Module time.

(** [Duration] is an [int64] count of nanoseconds. *)
Definition Duration : Type := Z.

Definition Nanosecond : Duration := 1.
Definition Microsecond : Duration := 1000 * Nanosecond.
Definition Millisecond : Duration := 1000 * Microsecond.
Definition Second : Duration := 1000 * Millisecond.

Definition minDuration : Duration := - 2 ^ 63.
Definition maxDuration : Duration := 2 ^ 63 - 1.

(** Conversion of a mathematical integer to [int64] and to [uint64]. *)
Definition int64 (z : Z) : Z := (z + 2 ^ 63) mod 2 ^ 64 - 2 ^ 63.
Definition uint64 (z : Z) : Z := z mod 2 ^ 64.

(** What the program observes of a [Time] returned by [Now]: the civil date
    and clock of its wall reading (what [Format] prints) and its monotonic
    reading [ext] in nanoseconds (what [Sub] subtracts). *)
Record Time := {
  Year : Z; Month : Z; Day : Z;
  Hour : Z; Minute : Z; Sec : Z;
  ext : Z
}.

(** [t.Sub(u)] for two readings that both carry a monotonic reading, which
    is the case of every value [Now] returns. *)
Definition Sub (t u : Time) : Duration :=
  let te := ext t in
  let ue := ext u in
  let d := int64 (te - ue) in
  if (d <? 0) && (te >? ue) then maxDuration
  else if (d >? 0) && (te <? ue) then minDuration
  else d.

(** A number in decimal, with a minus sign when it is negative. *)
Definition itoa (v : Z) : string := NilZero.string_of_int (Z.to_int v).

(** [appendInt(b, x, width)] for [0 <= x]: decimal, zero-padded. *)
Definition appendInt (x : Z) (width : nat) : string :=
  let s := itoa x in
  String.concat "" (repeat "0"%string (width - String.length s)%nat) +:+ s.

(** [layout[n:]]. *)
Definition skip (n : nat) (layout : string) : string :=
  String.substring n (String.length layout - n) layout.

(** [t.Format(layout)], for layouts made of the elements [2006], [01],
    [02], [15], [04], [05] and literal text, which covers the one layout of
    this program.  The layout gets shorter at every step, so its length
    plus one is fuel enough. *)
Fixpoint Format_chunks (fuel : nat) (layout : string) (t : Time) : string :=
  match fuel, layout with
  | O, _ | _, EmptyString => ""
  | S fuel, String c rest =>
    if String.prefix "2006" layout
    then appendInt (Year t) 4 +:+ Format_chunks fuel (skip 4 layout) t
    else if String.prefix "01" layout
    then appendInt (Month t) 2 +:+ Format_chunks fuel (skip 2 layout) t
    else if String.prefix "02" layout
    then appendInt (Day t) 2 +:+ Format_chunks fuel (skip 2 layout) t
    else if String.prefix "15" layout
    then appendInt (Hour t) 2 +:+ Format_chunks fuel (skip 2 layout) t
    else if String.prefix "04" layout
    then appendInt (Minute t) 2 +:+ Format_chunks fuel (skip 2 layout) t
    else if String.prefix "05" layout
    then appendInt (Sec t) 2 +:+ Format_chunks fuel (skip 2 layout) t
    else String c (Format_chunks fuel rest t)
  end.

Definition Format (t : Time) (layout : string) : string :=
  Format_chunks (S (String.length layout)) layout t.

(** [fmtFrac(buf, v, prec)]: the fraction of [v / 10^prec] put in front of
    [buf] without trailing zeros, and the integer part. *)
Fixpoint fmtFrac_loop (prec : nat) (buf : string) (v : Z) (print : bool)
  : string * Z * bool :=
  match prec with
  | O => (buf, v, print)
  | S prec =>
    let digit := v mod 10 in
    let print := print || negb (digit =? 0) in
    let buf := if print then itoa digit +:+ buf else buf in
    fmtFrac_loop prec buf (v / 10) print
  end.

Definition fmtFrac (buf : string) (v : Z) (prec : nat) : string * Z :=
  let '(buf, v, print) := fmtFrac_loop prec buf v false in
  (if print then "." +:+ buf else buf, v).

(** [fmtInt(buf, v)]: the decimal digits of [v] put in front of [buf]. *)
Definition fmtInt (buf : string) (v : Z) : string := itoa v +:+ buf.

(** The two bytes of the micro sign in UTF-8. *)
Definition micro : string := String "194"%char (String "181"%char EmptyString).

(** [d.String()]. *)
Definition Duration_String (d : Duration) : string :=
  let neg := d <? 0 in
  let u := if neg then uint64 (- d) else uint64 d in
  let w :=
    if u <? uint64 Second then
      if u =? 0 then "0s"
      else if u <? uint64 Microsecond then
        let '(w, u) := fmtFrac "ns" u 0 in fmtInt w u
      else if u <? uint64 Millisecond then
        let '(w, u) := fmtFrac (micro +:+ "s") u 3 in fmtInt w u
      else
        let '(w, u) := fmtFrac "ms" u 6 in fmtInt w u
    else
      let '(w, u) := fmtFrac "s" u 9 in
      let w := fmtInt w (u mod 60) in
      let u := u / 60 in
      if u >? 0 then
        let w := fmtInt ("m" +:+ w) (u mod 60) in
        let u := u / 60 in
        if u >? 0 then fmtInt ("h" +:+ w) u else w
      else w
  in
  if neg then "-" +:+ w else w.

End time.

(** ** The process and its surroundings *)

(** What a running process can observe and change outside its own memory:
    the environment variables, the clock (an oracle: [clock n] is what the
    [n]-th call of [time.Now] returns) and the two output streams, each the
    list of the writes made to it, oldest first. *)
Record World := {
  environ : gmap string string;
  clock : nat -> time.Time;
  ticks : nat;
  stdout : list (list byte);
  stderr : list (list byte)
}.

(** A function either returns or panics. *)
Inductive Outcome :=
| Returned
| Panicked (msg : string).

(** [time.Now()]. *)
Definition time_Now (world : World) : time.Time * World :=
  (clock world (ticks world),
   {| environ := environ world; clock := clock world; ticks := S (ticks world);
      stdout := stdout world; stderr := stderr world |}).

(** ** Package io *)

Module io.

(** The interface [io.Writer].  The object written to and the world are
    both passed through, since a writer may live in either. *)
Class Writer (A : Type) := {
  Write : A -> list byte -> World -> A * World * (Z * error)
}.

End io.

(** ** Package os *)

Module os.

Inductive File := Stdout | Stderr.

(** [f.Write(b)] on one of the two standard streams. *)
Definition File_Write (f : File) (b : list byte) (world : World)
  : File * World * (Z * error) :=
  match f with
  | Stdout =>
    (f, {| environ := environ world; clock := clock world; ticks := ticks world;
           stdout := stdout world ++ [b]; stderr := stderr world |}, (len b, None))
  | Stderr =>
    (f, {| environ := environ world; clock := clock world; ticks := ticks world;
           stdout := stdout world; stderr := stderr world ++ [b] |}, (len b, None))
  end.

#[global] Instance File_Writer : io.Writer File := {| io.Write := File_Write |}.

(** [os.LookupEnv(key)]. *)
Definition LookupEnv (key : string) (world : World) : string * bool :=
  match environ world !! key with
  | Some value => (value, true)
  | None => (""%string, false)
  end.

End os.

(** ** Package fmt *)

Module fmt.

(** The operands this program prints. *)
Inductive any :=
| Str (s : string)
| Int (n : Z)
| Dur (d : time.Duration).

Definition typeName (a : any) : string :=
  match a with
  | Str _ => "string"
  | Int _ => "int"
  | Dur _ => "time.Duration"
  end.

(** The default format, [%v]. *)
Definition printValue (a : any) : string :=
  match a with
  | Str s => s
  | Int n => time.itoa n
  | Dur d => time.Duration_String d
  end.

Definition badVerb (verb : ascii) (a : any) : string :=
  "%!" +:+ String verb ("(" +:+ typeName a +:+ "=" +:+ printValue a +:+ ")").

(** One operand under one verb, for the verbs [v], [s] and [d] without
    flags, width or precision. *)
Definition printArg (a : any) (verb : ascii) : string :=
  if Ascii.eqb verb "v" then printValue a
  else if Ascii.eqb verb "s" then
    match a with
    | Str s => s
    | Dur d => time.Duration_String d
    | Int _ => badVerb verb a
    end
  else if Ascii.eqb verb "d" then
    match a with
    | Int n => time.itoa n
    | Dur d => time.itoa d
    | Str _ => badVerb verb a
    end
  else badVerb verb a.

Fixpoint extraArgs (a : list any) : string :=
  match a with
  | [] => ""
  | [x] => typeName x +:+ "=" +:+ printValue x
  | x :: a => typeName x +:+ "=" +:+ printValue x +:+ ", " +:+ extraArgs a
  end.

Definition extra (a : list any) : string :=
  match a with
  | [] => ""
  | _ => "%!(EXTRA " +:+ extraArgs a +:+ ")"
  end.

(** [fmt.Sprintf(format, a...)]. *)
Fixpoint Sprintf (format : string) (a : list any) : string :=
  match format with
  | EmptyString => extra a
  | String c rest =>
    if Ascii.eqb c "%" then
      match rest with
      | EmptyString => "%!(NOVERB)" +:+ extra a
      | String verb rest =>
        if Ascii.eqb verb "%" then "%" +:+ Sprintf rest a
        else
          match a with
          | [] => "%!" +:+ String verb ("(MISSING)" +:+ Sprintf rest [])
          | x :: a => printArg x verb +:+ Sprintf rest a
          end
      end
    else String c (Sprintf rest a)
  end.

(** [fmt.Sprintln(a...)]: the operands in their default format, separated
    by spaces, and a newline. *)
Fixpoint Sprintln (a : list any) : string :=
  match a with
  | [] => NL
  | [x] => printValue x +:+ NL
  | x :: a => printValue x +:+ " " +:+ Sprintln a
  end.

(** [fmt.Fprintf] and [fmt.Fprintln] format into a buffer and hand it to
    the writer in a single call of [Write]. *)
Definition Fprintf {A} `{io.Writer A} (w : A) (format : string) (a : list any)
  (world : World) : A * World * (Z * error) :=
  io.Write w (bytes (Sprintf format a)) world.

Definition Fprintln {A} `{io.Writer A} (w : A) (a : list any)
  (world : World) : A * World * (Z * error) :=
  io.Write w (bytes (Sprintln a)) world.

End fmt.


(** ** Package log *)

Module log.

(** [log.Printf(format, v...)] on the standard logger, with its standard
    flags: the message is formatted, the time is read, and the date and the
    time of day of that reading, the message and (when the message does not
    end in one) a newline go to the standard error in a single write. *)
Definition Printf (format : string) (v : list fmt.any) (world : World) : World :=
  let s := fmt.Sprintf format v in
  let '(now, world) := time_Now world in
  let buf := time.Format now "2006/01/02 15:04:05" +:+ " " +:+ s in
  let buf := if byteIs "010" (lastByte s) then buf else buf +:+ NL in
  let '(_, world, _) := io.Write os.Stderr (bytes buf) world in
  world.

End log.

(** ** Package path *)

Module path.

(** The elements of a path: what stands between its slashes. *)
Fixpoint elements (p : string) : list string :=
  match p with
  | EmptyString => [""%string]
  | String c rest =>
    if Ascii.eqb c "/" then ""%string :: elements rest
    else match elements rest with
         | e :: es => String c e :: es
         | [] => [String c EmptyString]
         end
  end.

(** One element of the path in [Clean].  [stack] holds the elements kept so
    far, the last one first, and [dotdot] says how many of them, at the
    bottom, are [..] elements that nothing can remove any more. *)
Definition step (rooted : bool) (st : list string * nat) (e : string)
  : list string * nat :=
  let '(stack, dotdot) := st in
  if String.eqb e "" then st
  else if String.eqb e "." then st
  else if String.eqb e ".." then
    if (dotdot <? List.length stack)%nat then (tl stack, dotdot)
    else if rooted then st
    else (e :: stack, S dotdot)
  else (e :: stack, dotdot).

(** [path.Clean(p)]: slashes in a row count as one, [.] elements go, a [..]
    element goes with the element before it (at the root it just goes, at
    the start of a path that is not rooted it stays), and the empty result
    is [.]. *)
Definition Clean (p : string) : string :=
  if String.eqb p "" then "."%string
  else
    let rooted := byteIs "/" (firstByte p) in
    let '(stack, _) := fold_left (step rooted) (elements p) ([], 0%nat) in
    let out := String.concat "/" (rev stack) in
    if rooted then "/" +:+ out
    else if String.eqb out "" then "."%string
    else out.

End path.

(** ** Package net/http *)

Module url.

Record URL := { Path : string }.

End url.

Module http.

Definition StatusOK : Z := 200.

(** [http.Header], a map from header names to their values. *)
Definition Header : Type := gmap string (list string).

(** [h.Get(key)] for a key in canonical form. *)
Definition Header_Get (h : Header) (key : string) : string :=
  match h !! key with
  | Some (v :: _) => v
  | _ => ""%string
  end.

Record Request := {
  Method : string;
  URL : url.URL;
  Proto : string;
  Request_Header : Header;
  Host : string;
  RemoteAddr : string
}.

Definition UserAgent (r : Request) : string :=
  Header_Get (Request_Header r) "User-Agent".

(** The interface [http.ResponseWriter].  An implementation is a type [W] of
    object states with the three methods; each returns the object it was
    called on next to its result. *)
Class ResponseWriter (W : Type) := {
  ResponseWriter_Header : W -> W * Header;
  ResponseWriter_Write : W -> list byte -> W * (Z * error);
  ResponseWriter_WriteHeader : W -> Z -> W
}.

(** Every [ResponseWriter] is an [io.Writer]. *)
#[global] Instance ResponseWriter_Writer (W : Type) `{ResponseWriter W} : io.Writer W := {|
  io.Write w b world :=
    let '(w, result) := ResponseWriter_Write w b in (w, world, result)
|}.

(** [http.HandlerFunc]: a function of a response writer and a request.  It
    is written against the interface, so it takes any implementation. *)
Definition HandlerFunc : Type :=
  forall (W : Type), ResponseWriter W -> W -> Request -> World -> W * World * Outcome.

(** The response object the server hands to a handler, as far as this
    program can tell: the header map, whether the status line has been
    written and with which code, and the body bytes written so far.  The
    first [Write] writes the status line with [StatusOK] when no
    [WriteHeader] came before it; a later [WriteHeader] is ignored. *)
Record response := {
  handlerHeader : Header;
  wroteHeader : bool;
  status : Z;
  written : list byte
}.

Definition newResponse : response :=
  {| handlerHeader := ∅; wroteHeader := false; status := 0; written := [] |}.

Definition response_Header (w : response) : response * Header :=
  (w, handlerHeader w).

Definition response_WriteHeader (w : response) (code : Z) : response :=
  if wroteHeader w then w
  else {| handlerHeader := handlerHeader w; wroteHeader := true;
          status := code; written := written w |}.

Definition response_Write (w : response) (data : list byte) : response * (Z * error) :=
  let w := if wroteHeader w then w else response_WriteHeader w StatusOK in
  ({| handlerHeader := handlerHeader w; wroteHeader := wroteHeader w;
      status := status w; written := written w ++ data |},
   (len data, None)).

#[global] Instance response_ResponseWriter : ResponseWriter response := {|
  ResponseWriter_Header := response_Header;
  ResponseWriter_Write := response_Write;
  ResponseWriter_WriteHeader := response_WriteHeader
|}.

(** [http.ServeMux]: the registered patterns ([m]), and those that end in a
    slash, longest first ([es]). *)
Record muxEntry := { h : HandlerFunc; pattern : string }.

Record ServeMux := {
  m : list (string * muxEntry);
  es : list muxEntry
}.

Definition NewServeMux : ServeMux := {| m := []; es := [] |}.

Fixpoint appendSorted (es : list muxEntry) (e : muxEntry) : list muxEntry :=
  match es with
  | [] => [e]
  | e' :: rest =>
    if (String.length (pattern e') <? String.length (pattern e))%nat
    then e :: es
    else e' :: appendSorted rest e
  end.

Definition endsInSlash (pattern : string) : bool :=
  match String.get (String.length pattern - 1) pattern with
  | Some c => Ascii.eqb c "/"
  | None => false
  end.

(** [mux.HandleFunc(pattern, handler)], for a pattern that is neither empty
    nor registered already (the two cases in which it panics). *)
Definition HandleFunc (mux : ServeMux) (pattern : string) (handler : HandlerFunc)
  : ServeMux :=
  let e := {| h := handler; pattern := pattern |} in
  {| m := (pattern, e) :: m mux;
     es := if endsInSlash pattern then appendSorted (es mux) e else es mux |}.

Fixpoint lookup_pattern (m : list (string * muxEntry)) (path : string)
  : option muxEntry :=
  match m with
  | [] => None
  | (p, e) :: m => if String.eqb p path then Some e else lookup_pattern m path
  end.

(** [mux.match(path)]: an exact match first, then the longest registered
    pattern ending in a slash that is a prefix of the path. *)
Definition ServeMux_match (mux : ServeMux) (path : string) : option muxEntry :=
  match lookup_pattern (m mux) path with
  | Some e => Some e
  | None => List.find (fun e => String.prefix (pattern e) path) (es mux)
  end.

(** [cleanPath(p)]: the canonical form of a path, rooted, with a final
    slash where [p] has one. *)
Definition cleanPath (p : string) : string :=
  if String.eqb p "" then "/"%string
  else
    let p := if byteIs "/" (firstByte p) then p else "/" +:+ p in
    let np := path.Clean p in
    if byteIs "/" (lastByte p) && negb (String.eqb np "/") then
      if (String.length p =? String.length np + 1)%nat && String.prefix np p
      then p
      else np +:+ "/"
    else np.

Definition registered (mux : ServeMux) (pattern : string) : bool :=
  match lookup_pattern (m mux) pattern with
  | Some _ => true
  | None => false
  end.

(** [mux.shouldRedirectRLocked(host, path)]: whether [path] is not
    registered while [path] with a slash after it is.  The mux is one without
    host-specific patterns (every pattern starts with a slash, as those of
    this program do), so that the keys [host + path] Go looks up as well are
    never registered and are left out, here and in [ServeMux_handler]. *)
Definition shouldRedirect (mux : ServeMux) (path : string) : bool :=
  if registered mux path then false
  else if (String.length path =? 0)%nat then false
  else if registered mux (path +:+ "/") then negb (byteIs "/" (lastByte path))
  else false.

(** What the mux decides for a request: one of the registered handlers, or
    a handler of net/http itself, which redirects the client to another path
    or answers that nothing was found. *)
Inductive Route :=
| Handle (e : muxEntry)
| RedirectTo (path : string)
| NotFound.

(** [mux.handler(host, path)]. *)
Definition ServeMux_handler (mux : ServeMux) (path : string) : Route :=
  match ServeMux_match mux path with
  | Some e => Handle e
  | None => NotFound
  end.

(** [mux.Handler(r)]: the path of a [CONNECT] request is taken as it is;
    any other request whose path is not in canonical form is redirected to
    the canonical form, and no registered handler is called for it. *)
Definition ServeMux_Handler (mux : ServeMux) (r : Request) : Route :=
  if String.eqb (Method r) "CONNECT" then
    if shouldRedirect mux (url.Path (URL r))
    then RedirectTo (url.Path (URL r) +:+ "/")
    else ServeMux_handler mux (url.Path (URL r))
  else
    let path := cleanPath (url.Path (URL r)) in
    if shouldRedirect mux path then RedirectTo (path +:+ "/")
    else if negb (String.eqb path (url.Path (URL r))) then RedirectTo path
    else ServeMux_handler mux (url.Path (URL r)).

(** [mux.ServeHTTP(w, r)]: the handler [mux.Handler(r)] chooses is called.
    [None] stands for the cases in which that is a handler of net/http and
    no handler of the program is called.  (The request [*], which net/http
    refuses before it looks for a handler, has the path [*]: it is among the
    requests that get no handler of the program here too.) *)
Definition ServeMux_ServeHTTP (mux : ServeMux) (W : Type) `{ResponseWriter W}
  (w : W) (r : Request) (world : World) : option (W * World * Outcome) :=
  match ServeMux_Handler mux r with
  | Handle e => Some (h e W _ w r world)
  | RedirectTo _ | NotFound => None
  end.

End http.

(** * The program: main.go *)

(** The flags and the positional arguments after [flag.Parse()]. *)
Record CommandLine := {
  listenFlag : string;
  textFlag : string;
  envFlag : string;
  Args : list string
}.

Definition stdoutW : os.File := os.Stdout.
Definition stderrW : os.File := os.Stderr.

Definition getEnvStrOrDefault (k d : string) (world : World) : string :=
  let '(v, ok) := os.LookupEnv k world in
  if ok then v else d.

Definition httpEcho (v kind : string) : http.HandlerFunc :=
  fun W RW w r world =>
    if String.eqb kind "text" then
      let '(w, world, _) := fmt.Fprintln w [fmt.Str v] world in
      (w, world, Returned)
    else if String.eqb kind "env" then
      let '(resolvedV, ok) := os.LookupEnv v world in
      if negb ok then
        let '(w, world, _) :=
          fmt.Fprintln w
            [fmt.Str (fmt.Sprintf "failed resolving env var '%s'" [fmt.Str v])] world in
        (w, world, Returned)
      else
        let '(w, world, _) := fmt.Fprintln w [fmt.Str resolvedV] world in
        (w, world, Returned)
    else (w, world, Panicked "something went wrong, not cool!").

Definition httpHealth : http.HandlerFunc :=
  fun W RW w r world =>
    let '(w, world, _) :=
      fmt.Fprintln w [fmt.Str ("{" +:+ DQ +:+ "status" +:+ DQ +:+ ":" +:+ DQ +:+ "ok" +:+ DQ +:+ "}")] world in
    (w, world, Returned).

Definition httpLogDateFormat : string := "2006/01/02 15:04:05".
Definition httpLogFormat : string :=
  "%v %s %s " +:+ DQ +:+ "%s %s %s" +:+ DQ +:+ " %d %d " +:+ DQ +:+ "%s" +:+ DQ +:+ " %v" +:+ NL.

Definition withAppHeaders (h : http.HandlerFunc) : http.HandlerFunc :=
  fun W RW w r world => h W RW w r world.

(** [metaResponseWriter] saves information about the response for logging. *)
Record metaResponseWriter (W : Type) := {
  writer : W;
  status : Z;
  length : Z
}.
Arguments writer {W} _.
Arguments status {W} _.
Arguments length {W} _.

Section metaResponseWriter_methods.
Context {W : Type} `{http.ResponseWriter W}.

Definition metaResponseWriter_Header (w : metaResponseWriter W)
  : metaResponseWriter W * http.Header :=
  let '(inner, header) := http.ResponseWriter_Header (writer w) in
  ({| writer := inner; status := status w; length := length w |}, header).

Definition metaResponseWriter_WriteHeader (w : metaResponseWriter W) (s : Z)
  : metaResponseWriter W :=
  let w := {| writer := writer w; status := s; length := length w |} in
  {| writer := http.ResponseWriter_WriteHeader (writer w) s;
     status := status w; length := length w |}.

Definition metaResponseWriter_Write (w : metaResponseWriter W) (b : list byte)
  : metaResponseWriter W * (Z * error) :=
  let w := if status w =? 0
           then {| writer := writer w; status := http.StatusOK; length := length w |}
           else w in
  let w := {| writer := writer w; status := status w; length := len b |} in
  let '(inner, result) := http.ResponseWriter_Write (writer w) b in
  ({| writer := inner; status := status w; length := length w |}, result).

#[global] Instance metaResponseWriter_ResponseWriter
  : http.ResponseWriter (metaResponseWriter W) := {|
  http.ResponseWriter_Header := metaResponseWriter_Header;
  http.ResponseWriter_Write := metaResponseWriter_Write;
  http.ResponseWriter_WriteHeader := metaResponseWriter_WriteHeader
|}.

End metaResponseWriter_methods.

(** [httpLog] logs the request and the response to [out] (an [io.Writer] in
    Go; the one writer [main] passes is the standard output, and the model
    takes one of the two standard streams).  The logging is a deferred
    function: it runs when [h] has returned and also when [h] has panicked,
    and the panic then goes on to the caller.  Its argument [time.Now()] is
    evaluated at the [defer] statement, before [h] runs. *)
Definition httpLog (out : os.File) (h : http.HandlerFunc) : http.HandlerFunc :=
  fun W RW w r world =>
    let mrw := {| writer := w; status := 0; length := 0 |} in
    let '(start, world) := time_Now world in
    let '(mrw, world, outcome) := h (metaResponseWriter W) _ mrw r world in
    let status := status mrw in
    let length := length mrw in
    let '(end_, world) := time_Now world in
    let dur := time.Sub end_ start in
    let '(_, world, _) :=
      fmt.Fprintf out httpLogFormat
        [fmt.Str (time.Format end_ httpLogDateFormat);
         fmt.Str (http.Host r); fmt.Str (http.RemoteAddr r);
         fmt.Str (http.Method r); fmt.Str (url.Path (http.URL r)); fmt.Str (http.Proto r);
         fmt.Int status; fmt.Int length; fmt.Str (http.UserAgent r); fmt.Dur dur] world in
    (writer mrw, world, outcome).

(** How [main] ends its start-up: the process exits, or the server starts to
    listen on [Addr] with [Handler], after the line of the log that says so
    (the two statements of the goroutine, in their order).  What follows the
    start of the server (the wait for an interrupt and the shutdown) is not
    part of the model. *)
Inductive Process :=
| Exit (code : Z)
| ListenAndServe (Addr : string) (Handler : http.ServeMux).

Definition main (cl : CommandLine) (world : World) : World * Process :=
  (* Validation *)
  if String.eqb (textFlag cl) "" && String.eqb (envFlag cl) "" then
    let '(_, world, _) :=
      fmt.Fprintln stderrW [fmt.Str "Missing -text or -env option!"] world in
    (world, Exit 127)
  else
    let args := Args cl in
    if len args >? 0 then
      let '(_, world, _) :=
        fmt.Fprintln stderrW [fmt.Str "Too many arguments!"] world in
      (world, Exit 127)
    else
      let '(finalFlag, finalKind) :=
        if negb (String.eqb (textFlag cl) "")
        then (textFlag cl, "text"%string)
        else (envFlag cl, "env"%string) in
      (* Flag gets printed as a page *)
      let mux := http.NewServeMux in
      let mux :=
        http.HandleFunc mux "/"
          (httpLog stdoutW (withAppHeaders (httpEcho finalFlag finalKind))) in
      (* Health endpoint *)
      let mux := http.HandleFunc mux "/health" (withAppHeaders httpHealth) in
      let world :=
        log.Printf ("[INFO] server is listening on %s" +:+ NL)
          [fmt.Str (listenFlag cl)] world in
      (world, ListenAndServe (listenFlag cl) mux).


(** * Vocabulary of the properties *)

(** The recorder [httpLog] starts from: [var mrw; mrw.writer = w]. *)
Definition fresh {W : Type} (w : W) : metaResponseWriter W :=
  {| writer := w; status := 0; length := 0 |}.

(** The literal the health handler prints. *)
Definition healthBody : string :=
  "{" +:+ DQ +:+ "status" +:+ DQ +:+ ":" +:+ DQ +:+ "ok" +:+ DQ +:+ "}".

(** What the echo handler prints for the name [N] of a variable. *)
Definition resolved (N : string) (world : World) : string :=
  match environ world !! N with
  | Some V => V
  | None => "failed resolving env var '" +:+ N +:+ "'"
  end.

(** A handler that, for the request [r] in the world [world], prints the
    line [s] to its response writer, whichever that is, and returns. *)
Definition prints (r : http.Request) (world : World) (h : http.HandlerFunc)
  (s : string) : Prop :=
  forall (W : Type) (RW : http.ResponseWriter W) (w : W),
    h W RW w r world
    = (fst (http.ResponseWriter_Write w (bytes (s +:+ NL))), world, Returned).

(** The mux [main] builds for a final flag and kind. *)
Definition routes (finalFlag finalKind : string) : http.ServeMux :=
  http.HandleFunc
    (http.HandleFunc http.NewServeMux "/"
       (httpLog stdoutW (withAppHeaders (httpEcho finalFlag finalKind))))
    "/health" (withAppHeaders httpHealth).

(** The two entries of that mux. *)
Definition rootEntry (finalFlag finalKind : string) : http.muxEntry :=
  {| http.h := httpLog stdoutW (withAppHeaders (httpEcho finalFlag finalKind));
     http.pattern := "/" |}.

Definition healthEntry : http.muxEntry :=
  {| http.h := withAppHeaders httpHealth; http.pattern := "/health" |}.

(** A request for which the mux calls one of its registered handlers. *)
Definition dispatched (mux : http.ServeMux) (r : http.Request) : bool :=
  match http.ServeMux_Handler mux r with
  | http.Handle _ => true
  | http.RedirectTo _ | http.NotFound => false
  end.

(** The world after [main] has logged that the server is listening: the
    clock has been read once and one line has gone to the error stream. *)
Definition listening (addr : string) (world : World) : World :=
  {| environ := environ world; clock := clock world; ticks := S (ticks world);
     stdout := stdout world;
     stderr := stderr world
               ++ [bytes (time.Format (clock world (ticks world)) "2006/01/02 15:04:05"
                          +:+ " [INFO] server is listening on " +:+ addr +:+ NL)] |}.

(** The number of newlines in a string: the number of lines it ends. *)
Fixpoint newlines (s : string) : nat :=
  match s with
  | EmptyString => 0%nat
  | String c rest => ((if Ascii.eqb c "010" then 1 else 0) + newlines rest)%nat
  end.

(** A request none of whose logged fields holds a newline. *)
Definition plain (r : http.Request) : Prop :=
  newlines (http.Host r) = 0%nat /\ newlines (http.RemoteAddr r) = 0%nat
  /\ newlines (http.Method r) = 0%nat /\ newlines (url.Path (http.URL r)) = 0%nat
  /\ newlines (http.Proto r) = 0%nat /\ newlines (http.UserAgent r) = 0%nat.

(** The world after one line has gone to the error stream. *)
Definition complain (msg : string) (world : World) : World :=
  {| environ := environ world; clock := clock world; ticks := ticks world;
     stdout := stdout world; stderr := stderr world ++ [bytes (msg +:+ NL)] |}.

(** The line [httpLog] prints for a request, given the time at the end, the
    recorded status and length, and the duration: its [Fprintf] call. *)
Definition logLine (end_ : time.Time) (r : http.Request) (status length : Z)
  (dur : time.Duration) : string :=
  fmt.Sprintf httpLogFormat
    [fmt.Str (time.Format end_ httpLogDateFormat);
     fmt.Str (http.Host r); fmt.Str (http.RemoteAddr r);
     fmt.Str (http.Method r); fmt.Str (url.Path (http.URL r)); fmt.Str (http.Proto r);
     fmt.Int status; fmt.Int length; fmt.Str (http.UserAgent r); fmt.Dur dur].

(** The world after one line has gone to the standard output and the clock
    has been read [n] more times. *)
Definition logged (n : nat) (line : string) (world : World) : World :=
  {| environ := environ world; clock := clock world; ticks := (n + ticks world)%nat;
     stdout := stdout world ++ [bytes line]; stderr := stderr world |}.

(** A configuration is valid, in the words of the specification, when
    exactly one of [text] and [env] is non-empty and no positional argument
    is given. *)
Definition exactly_one_flag (cl : CommandLine) : Prop :=
  ((textFlag cl <> ""%string /\ envFlag cl = ""%string)
   \/ (textFlag cl = ""%string /\ envFlag cl <> ""%string))
  /\ Args cl = [].

(** ** A world, command lines and requests to run the program on *)

Definition exampleClock (n : nat) : time.Time :=
  {| time.Year := 2026; time.Month := 10; time.Day := 30;
     time.Hour := 9; time.Minute := 5; time.Sec := 7;
     time.ext := 1000 + 52083 * Z.of_nat n |}.

Definition exampleWorld : World :=
  {| environ := {[ "HOME"%string := "/root"%string ]};
     clock := exampleClock; ticks := 0; stdout := []; stderr := [] |}.

Definition exampleRequest (method path : string) : http.Request :=
  {| http.Method := method; http.URL := {| url.Path := path |};
     http.Proto := "HTTP/1.1";
     http.Request_Header := {[ "User-Agent"%string := ["curl/8.0"%string] ]};
     http.Host := "localhost:5678"; http.RemoteAddr := "127.0.0.1:4242" |}.

Definition commandLine (text env : string) (args : list string) : CommandLine :=
  {| listenFlag := ":5678"; textFlag := text; envFlag := env; Args := args |}.

(** ** Sequences of calls and of requests *)

(** A call of one of the three methods of a response writer, and what the
    call returns. *)
Inductive Call :=
| CallHeader
| CallWriteHeader (s : Z)
| CallWrite (b : list byte).

Inductive Reply :=
| HeaderReply (h : http.Header)
| WriteHeaderReply
| WriteReply (n : Z) (err : error).

Definition call {W : Type} {RW : http.ResponseWriter W} (w : W) (c : Call) : W * Reply :=
  match c with
  | CallHeader =>
    let '(w, h) := http.ResponseWriter_Header w in (w, HeaderReply h)
  | CallWriteHeader s => (http.ResponseWriter_WriteHeader w s, WriteHeaderReply)
  | CallWrite b =>
    let '(w, (n, err)) := http.ResponseWriter_Write w b in (w, WriteReply n err)
  end.

(** The calls of a handler, one after the other, on the same writer. *)
Fixpoint calls {W : Type} {RW : http.ResponseWriter W} (w : W) (cs : list Call)
  : W * list Reply :=
  match cs with
  | [] => (w, [])
  | c :: cs =>
    let '(w, reply) := call w c in
    let '(w, replies) := calls w cs in
    (w, reply :: replies)
  end.

(** The requests the route [/] of [main] takes: all but those for
    [/health]. *)
Definition echoed (r : http.Request) : bool :=
  negb (String.eqb (url.Path (http.URL r)) "/health").

(** The server answers the requests one after the other, each on a response
    object of its own; an answer is the response and the outcome of the
    handler, or [None] when no route matches. *)
Fixpoint serveAll (mux : http.ServeMux) (rs : list http.Request) (world : World)
  : World * list (option (http.response * Outcome)) :=
  match rs with
  | [] => (world, [])
  | r :: rs =>
    match http.ServeMux_ServeHTTP mux http.response http.newResponse r world with
    | Some (w, world, outcome) =>
      let '(world, answers) := serveAll mux rs world in
      (world, Some (w, outcome) :: answers)
    | None =>
      let '(world, answers) := serveAll mux rs world in
      (world, None :: answers)
    end
  end.

(** * Properties *)

(** ** The model at work *)

Example Duration_String_examples :
  map time.Duration_String [0; 1; 1500; 52083; 1500000; 1000000000; 90000000000; -1500000]
  = ["0s"; "1ns"; "1.5" +:+ time.micro +:+ "s"; "52.083" +:+ time.micro +:+ "s";
     "1.5ms"; "1s"; "1m30s"; "-1.5ms"]%string.
Proof. reflexivity. Qed.

Example Sub_saturates :
  time.Sub {| time.Year := 0; time.Month := 0; time.Day := 0; time.Hour := 0;
              time.Minute := 0; time.Sec := 0; time.ext := 2 ^ 63 - 1 |}
           {| time.Year := 0; time.Month := 0; time.Day := 0; time.Hour := 0;
              time.Minute := 0; time.Sec := 0; time.ext := - 1 |}
  = time.maxDuration.
Proof. reflexivity. Qed.

Example serve_root_example :
  http.ServeMux_ServeHTTP (routes "hi" "text") http.response http.newResponse
    (exampleRequest "GET" "/") exampleWorld
  = Some
      ({| http.handlerHeader := ∅; http.wroteHeader := true; http.status := 200;
          http.written := ["h"%byte; "i"%byte; x0a] |},
       {| environ := environ exampleWorld; clock := exampleClock; ticks := 2;
          stdout :=
            [bytes ("2026/10/30 09:05:07 localhost:5678 127.0.0.1:4242 " +:+ DQ
                    +:+ "GET / HTTP/1.1" +:+ DQ +:+ " 200 3 " +:+ DQ +:+ "curl/8.0"
                    +:+ DQ +:+ " 52.083" +:+ time.micro +:+ "s" +:+ NL)];
          stderr := [] |},
       Returned).
Proof. reflexivity. Qed.

Example serve_panic_example :
  httpLog stdoutW (withAppHeaders (httpEcho "v" "bogus")) http.response _
    http.newResponse (exampleRequest "GET" "/") exampleWorld
  = (http.newResponse,
     {| environ := environ exampleWorld; clock := exampleClock; ticks := 2;
        stdout :=
          [bytes ("2026/10/30 09:05:07 localhost:5678 127.0.0.1:4242 " +:+ DQ
                  +:+ "GET / HTTP/1.1" +:+ DQ +:+ " 0 0 " +:+ DQ +:+ "curl/8.0"
                  +:+ DQ +:+ " 52.083" +:+ time.micro +:+ "s" +:+ NL)];
        stderr := [] |},
     Panicked "something went wrong, not cool!").
Proof. reflexivity. Qed.

Example cleanPath_examples :
  map http.cleanPath ["/"; ""; "a"; "//health"; "/a/../health"; "/a/."; "/a/"; "/a//";
                      "/.."; "/health/"; "/health"; "/..."; "*"]%string
  = ["/"; "/"; "/a"; "/health"; "/health"; "/a"; "/a/"; "/a/";
     "/"; "/health/"; "/health"; "/..."; "/*"]%string.
Proof. reflexivity. Qed.

Example Clean_examples :
  map path.Clean [""; "a/.."; "../a"; "a/../.."; "/../a"; "a//b/./c/.."; "/"]%string
  = ["."; "."; "../a"; ".."; "/a"; "a/b"; "/"]%string.
Proof. reflexivity. Qed.

Example redirect_example :
  http.ServeMux_Handler (routes "hi" "text") (exampleRequest "GET" "//health")
  = http.RedirectTo "/health"
  /\ http.ServeMux_ServeHTTP (routes "hi" "text") http.response http.newResponse
       (exampleRequest "GET" "//health") exampleWorld = None.
Proof. split; reflexivity. Qed.

Example main_listening_example :
  main (commandLine "hi" "" []) exampleWorld
  = ({| environ := environ exampleWorld; clock := exampleClock; ticks := 1;
        stdout := [];
        stderr := [bytes ("2026/10/30 09:05:07 [INFO] server is listening on :5678"
                          +:+ NL)] |},
     ListenAndServe ":5678" (routes "hi" "text")).
Proof. reflexivity. Qed.

Example main_neither_example :
  main (commandLine "" "" ["x"%string]) exampleWorld
  = ({| environ := environ exampleWorld; clock := exampleClock; ticks := 0;
        stdout := []; stderr := [bytes ("Missing -text or -env option!" +:+ NL)] |},
     Exit 127).
Proof. reflexivity. Qed.

(** ** Strings and bytes *)

Lemma bytes_String (c : ascii) (s : string) :
  bytes (String c s) = byte_of_ascii c :: bytes s.
Proof. reflexivity. Qed.

Lemma append_String (c : ascii) (s t : string) :
  String c s +:+ t = String c (s +:+ t).
Proof. reflexivity. Qed.

Lemma len_bytes (s : string) : len (bytes s) = len_string s.
Proof.
  unfold len, len_string. f_equal.
  induction s as [|c s IH]; [reflexivity|].
  rewrite bytes_String. cbn [List.length String.length]. now rewrite IH.
Qed.

Lemma len_string_app (s t : string) :
  len_string (s +:+ t) = len_string s + len_string t.
Proof.
  unfold len_string. rewrite <- Nat2Z.inj_add. f_equal.
  induction s as [|c s IH]; [reflexivity|].
  rewrite append_String. cbn [String.length]. rewrite IH. reflexivity.
Qed.

Lemma len_line (s : string) : len (bytes (s +:+ NL)) = len_string s + 1.
Proof. rewrite len_bytes, len_string_app. reflexivity. Qed.

Lemma append_assoc (s t u : string) : (s +:+ t) +:+ u = s +:+ (t +:+ u).
Proof.
  induction s as [|c s IH]; [reflexivity|].
  rewrite !append_String. now rewrite IH.
Qed.

Lemma contains_prefix (sub post : string) : contains (sub +:+ post) sub.
Proof. exists ""%string, post. reflexivity. Qed.

Lemma contains_append_l (p s sub : string) : contains s sub -> contains (p +:+ s) sub.
Proof.
  intros (pre & post & ->). exists (p +:+ pre), post. now rewrite append_assoc.
Qed.

(** ** Formatted lines *)

Lemma Sprintln_Str (s : string) : fmt.Sprintln [fmt.Str s] = s +:+ NL.
Proof. reflexivity. Qed.

Lemma Sprintf_failed (v : string) :
  fmt.Sprintf "failed resolving env var '%s'" [fmt.Str v]
  = "failed resolving env var '" +:+ v +:+ "'".
Proof. reflexivity. Qed.

(** The log line, field by field. *)
Lemma logLine_eq (end_ : time.Time) (r : http.Request) (status length : Z)
  (dur : time.Duration) :
  logLine end_ r status length dur
  = time.Format end_ httpLogDateFormat +:+ " " +:+ http.Host r +:+ " "
    +:+ http.RemoteAddr r +:+ " " +:+ DQ
    +:+ http.Method r +:+ " " +:+ url.Path (http.URL r) +:+ " " +:+ http.Proto r
    +:+ DQ +:+ " " +:+ time.itoa status +:+ " " +:+ time.itoa length +:+ " " +:+ DQ
    +:+ http.UserAgent r +:+ DQ +:+ " " +:+ time.Duration_String dur +:+ NL.
Proof. reflexivity. Qed.

Lemma logLine_contains (end_ : time.Time) (r : http.Request) (status length : Z)
  (dur : time.Duration) :
  let line := logLine end_ r status length dur in
  contains line (http.Method r)
  /\ contains line (url.Path (http.URL r))
  /\ contains line (http.Proto r)
  /\ contains line (time.itoa status)
  /\ contains line (time.itoa length)
  /\ contains line (time.Duration_String dur).
Proof.
  cbv zeta. rewrite logLine_eq.
  repeat split; repeat first [ apply contains_prefix | apply contains_append_l ].
Qed.

(** The log line is one line: it ends with the newline of the format. *)
Lemma ends_NL : exists pre, NL = pre +:+ NL.
Proof. exists ""%string. reflexivity. Qed.

Lemma ends_append (p s : string) :
  (exists pre, s = pre +:+ NL) -> exists pre, p +:+ s = pre +:+ NL.
Proof. intros [pre ->]. exists (p +:+ pre). now rewrite append_assoc. Qed.

Lemma logLine_newline (end_ : time.Time) (r : http.Request) (status length : Z)
  (dur : time.Duration) :
  exists pre, logLine end_ r status length dur = pre +:+ NL.
Proof. rewrite logLine_eq. repeat first [ apply ends_NL | apply ends_append ]. Qed.

(** ** Newlines in what is printed *)

Lemma newlines_app (s t : string) : newlines (s +:+ t) = (newlines s + newlines t)%nat.
Proof.
  induction s as [|c s IH]; [reflexivity|].
  rewrite append_String. cbn [newlines]. rewrite IH. lia.
Qed.

Lemma newlines_uint (d : Decimal.uint) : newlines (NilEmpty.string_of_uint d) = 0%nat.
Proof. induction d; cbn [NilEmpty.string_of_uint newlines]; try assumption; reflexivity. Qed.

Lemma newlines_itoa (z : Z) : newlines (time.itoa z) = 0%nat.
Proof.
  unfold time.itoa, NilZero.string_of_int.
  destruct (Z.to_int z) as [d|d]; unfold NilZero.string_of_uint;
    destruct d; cbn [newlines Ascii.eqb Bool.eqb]; try reflexivity;
    apply newlines_uint.
Qed.

Lemma newlines_zeros (n : nat) : newlines (String.concat "" (repeat "0"%string n)) = 0%nat.
Proof.
  induction n as [|n IH]; [reflexivity|].
  cbn [repeat]. destruct n as [|n]; [reflexivity|].
  cbn [repeat String.concat] in *. rewrite !newlines_app, IH. reflexivity.
Qed.

Lemma newlines_appendInt (x : Z) (width : nat) : newlines (time.appendInt x width) = 0%nat.
Proof. unfold time.appendInt. now rewrite newlines_app, newlines_zeros, newlines_itoa. Qed.


Lemma newlines_Format (t : time.Time) :
  newlines (time.Format t "2006/01/02 15:04:05") = 0%nat.
Proof.
  unfold time.Format. cbn -[time.appendInt].
  repeat first [ rewrite newlines_app | rewrite newlines_appendInt
               | progress cbn [newlines Ascii.eqb Bool.eqb Nat.add] ].
  reflexivity.
Qed.

Lemma newlines_fmtFrac_loop (prec : nat) (buf : string) (v : Z) (print : bool) :
  newlines (fst (fst (time.fmtFrac_loop prec buf v print))) = newlines buf.
Proof.
  revert buf v print. induction prec as [|prec IH]; intros buf v print; [reflexivity|].
  cbn [time.fmtFrac_loop]. rewrite IH.
  destruct (print || negb (v mod 10 =? 0)); [|reflexivity].
  now rewrite newlines_app, newlines_itoa.
Qed.

Lemma newlines_fmtFrac (buf : string) (v : Z) (prec : nat) :
  newlines (fst (time.fmtFrac buf v prec)) = newlines buf.
Proof.
  unfold time.fmtFrac. pose proof (newlines_fmtFrac_loop prec buf v false) as H.
  destruct (time.fmtFrac_loop prec buf v false) as [[buf' v'] print]. cbn [fst] in *.
  destruct print; [|assumption]. rewrite newlines_app, H. reflexivity.
Qed.

Lemma newlines_fmtInt (buf : string) (v : Z) : newlines (time.fmtInt buf v) = newlines buf.
Proof. unfold time.fmtInt. now rewrite newlines_app, newlines_itoa. Qed.

Lemma newlines_Duration_String (d : time.Duration) :
  newlines (time.Duration_String d) = 0%nat.
Proof.
  unfold time.Duration_String. cbv zeta.
  destruct (d <? 0);
    [generalize (time.uint64 (- d)) | generalize (time.uint64 d)]; intros u;
    rewrite ?newlines_app;
    repeat match goal with
           | |- context [if ?b then _ else _] => destruct b
           | |- context [time.fmtFrac ?b ?v ?p] =>
             let H := fresh in
             pose proof (newlines_fmtFrac b v p) as H;
             destruct (time.fmtFrac b v p); cbn [fst] in H
           end;
    repeat first [ rewrite newlines_fmtInt | rewrite newlines_app ];
    try match goal with H : newlines _ = _ |- _ => rewrite H end;
    reflexivity.
Qed.

(** The newlines of the log line: the one at its end, and those of the
    fields of the request. *)
Lemma logLine_newlines (end_ : time.Time) (r : http.Request) (status length : Z)
  (dur : time.Duration) :
  newlines (logLine end_ r status length dur)
  = (1 + (newlines (http.Host r) + newlines (http.RemoteAddr r)
          + newlines (http.Method r) + newlines (url.Path (http.URL r))
          + newlines (http.Proto r) + newlines (http.UserAgent r)))%nat.
Proof.
  rewrite logLine_eq. fold httpLogDateFormat.
  repeat first [ rewrite newlines_app | rewrite newlines_itoa
               | rewrite newlines_Duration_String ].
  unfold httpLogDateFormat. rewrite newlines_Format.
  change (newlines " ") with 0%nat. change (newlines DQ) with 0%nat.
  change (newlines NL) with 1%nat. lia.
Qed.

Lemma lastByte_app (s : string) (c : ascii) :
  lastByte (s +:+ String c EmptyString) = Some c.
Proof.
  induction s as [|c' s IH]; [reflexivity|].
  rewrite append_String. cbn [lastByte]. rewrite IH.
  destruct s; reflexivity.
Qed.

(** ** The server's response object *)

Lemma response_Write_written (w : http.response) (b : list byte) :
  http.written (fst (http.response_Write w b)) = http.written w ++ b.
Proof.
  unfold http.response_Write, http.response_WriteHeader.
  destruct (http.wroteHeader w); reflexivity.
Qed.

(** ** The response recorder *)

(** [fmt.Fprintln(w, s)] on a response writer is one [Write] of the line. *)
Lemma Fprintln_Write {W : Type} {RW : http.ResponseWriter W}
  (w : W) (s : string) (world : World) :
  fmt.Fprintln w [fmt.Str s] world
  = (fst (http.ResponseWriter_Write w (bytes (s +:+ NL))), world,
     snd (http.ResponseWriter_Write w (bytes (s +:+ NL)))).
Proof.
  unfold fmt.Fprintln. rewrite Sprintln_Str. cbn [io.Write http.ResponseWriter_Writer].
  destruct (http.ResponseWriter_Write w (bytes (s +:+ NL))); reflexivity.
Qed.

Section Recorder.
Context {W : Type} {RW : http.ResponseWriter W}.

Lemma metaResponseWriter_Write_eq (mrw : metaResponseWriter W) (b : list byte) :
  metaResponseWriter_Write mrw b
  = ({| writer := fst (http.ResponseWriter_Write (writer mrw) b);
        status := if status mrw =? 0 then http.StatusOK else status mrw;
        length := len b |},
     snd (http.ResponseWriter_Write (writer mrw) b)).
Proof.
  unfold metaResponseWriter_Write.
  destruct (status mrw =? 0); cbn [writer status length];
    destruct (http.ResponseWriter_Write (writer mrw) b); reflexivity.
Qed.

(** C4. For every byte sequence [b] and every recorder state, [Write] turns
    a recorded status of 0 (none recorded yet) into 200 and leaves any other
    recorded status as it is, sets the recorded length to the length of [b]
    whatever it was before, hands exactly [b] to the underlying response
    writer, and returns that writer's result unchanged. *)
Theorem metaResponseWriter_Write_spec (mrw : metaResponseWriter W) (b : list byte) :
  let after := fst (metaResponseWriter_Write mrw b) in
  (status mrw = 0 -> status after = 200)
  /\ (status mrw <> 0 -> status after = status mrw)
  /\ length after = len b
  /\ writer after = fst (http.ResponseWriter_Write (writer mrw) b)
  /\ snd (metaResponseWriter_Write mrw b) = snd (http.ResponseWriter_Write (writer mrw) b).
Proof.
  cbv zeta. rewrite metaResponseWriter_Write_eq. cbn [fst snd writer status length].
  unfold http.StatusOK.
  destruct (Z.eqb_spec (status mrw) 0) as [E|E]; repeat split; intros;
    solve [reflexivity | lia].
Qed.

(** Two writes in a row: the length recorded is that of the second. *)
Lemma metaResponseWriter_Write_twice (mrw : metaResponseWriter W) (b1 b2 : list byte) :
  length (fst (metaResponseWriter_Write (fst (metaResponseWriter_Write mrw b1)) b2))
  = len b2.
Proof. now rewrite !metaResponseWriter_Write_eq. Qed.

(** C10. [Header] returns exactly what the underlying response writer's
    [Header] returns, and leaves the recorded status and the recorded length
    as they are; the only part of the recorder it touches is the underlying
    writer, which is as its own [Header] call leaves it. *)
Theorem metaResponseWriter_Header_spec (mrw : metaResponseWriter W) :
  snd (metaResponseWriter_Header mrw) = snd (http.ResponseWriter_Header (writer mrw))
  /\ status (fst (metaResponseWriter_Header mrw)) = status mrw
  /\ length (fst (metaResponseWriter_Header mrw)) = length mrw
  /\ writer (fst (metaResponseWriter_Header mrw)) = fst (http.ResponseWriter_Header (writer mrw)).
Proof.
  unfold metaResponseWriter_Header.
  destruct (http.ResponseWriter_Header (writer mrw)); cbn. auto.
Qed.

(** A handler that prints one line, run on a fresh recorder: the status
    recorded is 200 and the length recorded is that of the line. *)
Lemma prints_recorded (h : http.HandlerFunc) (s : string) (w : W)
  (r : http.Request) (world : World) :
  prints r world h s ->
  h (metaResponseWriter W) _ (fresh w) r world
  = ({| writer := fst (http.ResponseWriter_Write w (bytes (s +:+ NL)));
        status := 200; length := len_string s + 1 |}, world, Returned).
Proof.
  intros Hh. rewrite Hh.
  cbn [http.ResponseWriter_Write metaResponseWriter_ResponseWriter].
  rewrite metaResponseWriter_Write_eq. cbn [fst fresh writer status length Z.eqb].
  now rewrite len_line.
Qed.

End Recorder.

(** ** The handlers *)

Section Handlers.
Context {W : Type} {RW : http.ResponseWriter W}.
Variables (w : W) (r : http.Request) (world : World).

Lemma httpEcho_text_eq (V : string) :
  httpEcho V "text" W RW w r world
  = (fst (http.ResponseWriter_Write w (bytes (V +:+ NL))), world, Returned).
Proof. unfold httpEcho. cbn [String.eqb Ascii.eqb Bool.eqb]. now rewrite Fprintln_Write. Qed.

Lemma httpEcho_env_eq (N : string) :
  httpEcho N "env" W RW w r world
  = (fst (http.ResponseWriter_Write w (bytes (resolved N world +:+ NL))), world, Returned).
Proof.
  unfold httpEcho, os.LookupEnv, resolved. cbn [String.eqb Ascii.eqb Bool.eqb].
  destruct (environ world !! N); cbn [negb]; rewrite Fprintln_Write; [reflexivity|].
  now rewrite Sprintf_failed.
Qed.

Lemma httpHealth_eq :
  httpHealth W RW w r world
  = (fst (http.ResponseWriter_Write w (bytes (healthBody +:+ NL))), world, Returned).
Proof. unfold httpHealth. now rewrite Fprintln_Write. Qed.

Lemma httpEcho_other_eq (v kind : string) :
  kind <> "text"%string -> kind <> "env"%string ->
  httpEcho v kind W RW w r world = (w, world, Panicked "something went wrong, not cool!").
Proof.
  intros Ht He. unfold httpEcho.
  destruct (String.eqb_spec kind "text"); [contradiction|].
  destruct (String.eqb_spec kind "env"); [contradiction|]. reflexivity.
Qed.

End Handlers.

Lemma prints_text (r : http.Request) (world : World) (V : string) :
  prints r world (withAppHeaders (httpEcho V "text")) V.
Proof. intros W RW w. unfold withAppHeaders. apply httpEcho_text_eq. Qed.

Lemma prints_env (r : http.Request) (world : World) (N : string) :
  prints r world (withAppHeaders (httpEcho N "env")) (resolved N world).
Proof. intros W RW w. unfold withAppHeaders. apply httpEcho_env_eq. Qed.

Lemma prints_health (r : http.Request) (world : World) :
  prints r world (withAppHeaders httpHealth) healthBody.
Proof. intros W RW w. unfold withAppHeaders. apply httpHealth_eq. Qed.

(** C1. For every literal configuration [V] (kind [text]) and every request,
    the echo handler makes one write, of [V] followed by a newline, and
    returns; behind the recorder of the access logger, as [main] installs
    it, the status recorded is 200; and on the server's response object the
    body is [V] followed by a newline and the status is 200. *)
Theorem httpEcho_text_spec (V : string) (W : Type) (RW : http.ResponseWriter W)
  (w : W) (r : http.Request) (world : World) :
  httpEcho V "text" W RW w r world
    = (fst (http.ResponseWriter_Write w (bytes (V +:+ NL))), world, Returned)
  /\ withAppHeaders (httpEcho V "text") (metaResponseWriter W) _ (fresh w) r world
    = ({| writer := fst (http.ResponseWriter_Write w (bytes (V +:+ NL)));
          status := 200; length := len_string V + 1 |}, world, Returned)
  /\ httpEcho V "text" http.response _ http.newResponse r world
    = ({| http.handlerHeader := ∅; http.wroteHeader := true;
          http.status := 200; http.written := bytes (V +:+ NL) |}, world, Returned).
Proof.
  split; [apply httpEcho_text_eq|]. split.
  - apply prints_recorded, prints_text.
  - rewrite httpEcho_text_eq. reflexivity.
Qed.

(** C2. For every environment-name configuration [N] (kind [env]) the echo
    handler looks [N] up in the environment of the request's moment.  When
    [N] is set to [V] it makes one write, of [V] and a newline; when [N] is
    not set it makes one write, of a message that contains [N], and a
    newline.  In both cases it returns, the status recorded behind the access
    logger's recorder is 200, and so is the status of the server's response
    object. *)
Theorem httpEcho_env_spec (N : string) (W : Type) (RW : http.ResponseWriter W)
  (w : W) (r : http.Request) (world : World) :
  (forall V, environ world !! N = Some V ->
     httpEcho N "env" W RW w r world
       = (fst (http.ResponseWriter_Write w (bytes (V +:+ NL))), world, Returned)
     /\ withAppHeaders (httpEcho N "env") (metaResponseWriter W) _ (fresh w) r world
       = ({| writer := fst (http.ResponseWriter_Write w (bytes (V +:+ NL)));
             status := 200; length := len_string V + 1 |}, world, Returned)
     /\ httpEcho N "env" http.response _ http.newResponse r world
       = ({| http.handlerHeader := ∅; http.wroteHeader := true;
             http.status := 200; http.written := bytes (V +:+ NL) |}, world, Returned))
  /\ (environ world !! N = None ->
     exists msg, contains msg N
     /\ msg = "failed resolving env var '" +:+ N +:+ "'"
     /\ httpEcho N "env" W RW w r world
       = (fst (http.ResponseWriter_Write w (bytes (msg +:+ NL))), world, Returned)
     /\ withAppHeaders (httpEcho N "env") (metaResponseWriter W) _ (fresh w) r world
       = ({| writer := fst (http.ResponseWriter_Write w (bytes (msg +:+ NL)));
             status := 200; length := len_string msg + 1 |}, world, Returned)
     /\ httpEcho N "env" http.response _ http.newResponse r world
       = ({| http.handlerHeader := ∅; http.wroteHeader := true;
             http.status := 200; http.written := bytes (msg +:+ NL) |}, world, Returned)).
Proof.
  pose proof (prints_recorded _ _ w r world (prints_env r world N)) as R.
  split.
  - intros V E. rewrite R, !httpEcho_env_eq. unfold resolved. rewrite E.
    repeat split.
  - intros E. exists ("failed resolving env var '" +:+ N +:+ "'").
    rewrite R, !httpEcho_env_eq. unfold resolved. rewrite E.
    repeat split. apply contains_append_l, contains_prefix.
Qed.

Lemma httpEcho_env_spec_witness :
  httpEcho "HOME" "env" http.response _ http.newResponse
    (exampleRequest "GET" "/") exampleWorld
  = ({| http.handlerHeader := ∅; http.wroteHeader := true; http.status := 200;
        http.written := bytes ("/root" +:+ NL) |}, exampleWorld, Returned).
Proof.
  apply (proj1 (httpEcho_env_spec "HOME" http.response _ http.newResponse
                  (exampleRequest "GET" "/") exampleWorld) "/root"%string).
  vm_compute. reflexivity.
Defined.

Lemma metaResponseWriter_Write_spec_witness :
  status (fst (metaResponseWriter_Write (fresh http.newResponse) [x68; x69; x0a])) = 200.
Proof.
  apply (proj1 (metaResponseWriter_Write_spec (fresh http.newResponse) [x68; x69; x0a])).
  reflexivity.
Defined.

(** C8. For every kind other than [text] and [env] the echo handler panics
    and leaves the response writer as it was: nothing is written.  For the
    kinds [text] and [env] it returns and does not panic; and these are the
    only kinds [main] ever constructs it with. *)
Theorem httpEcho_other_kind (v kind : string) (W : Type) (RW : http.ResponseWriter W)
  (w : W) (r : http.Request) (world : World) :
  (kind <> "text"%string -> kind <> "env"%string ->
     httpEcho v kind W RW w r world
     = (w, world, Panicked "something went wrong, not cool!"))
  /\ (kind = "text"%string \/ kind = "env"%string ->
     exists w', httpEcho v kind W RW w r world = (w', world, Returned))
  /\ (forall cl world0 world1 addr mux,
        main cl world0 = (world1, ListenAndServe addr mux) ->
        exists v' kind',
          (kind' = "text"%string \/ kind' = "env"%string)
          /\ mux = http.HandleFunc
                     (http.HandleFunc http.NewServeMux "/"
                        (httpLog stdoutW (withAppHeaders (httpEcho v' kind'))))
                     "/health" (withAppHeaders httpHealth)).
Proof.
  split; [apply httpEcho_other_eq|]. split.
  - intros [->| ->]; eexists; [apply httpEcho_text_eq | apply httpEcho_env_eq].
  - intros cl world0 world1 addr mux Hmain. unfold main in Hmain.
    destruct (String.eqb (textFlag cl) "" && String.eqb (envFlag cl) "");
      [destruct (fmt.Fprintln _ _ _) as [[? ?] ?] in Hmain; discriminate|].
    destruct (len (Args cl) >? 0);
      [destruct (fmt.Fprintln _ _ _) as [[? ?] ?] in Hmain; discriminate|].
    destruct (negb (String.eqb (textFlag cl) "")); injection Hmain as _ _ <-;
      eexists _, _; (split; [|reflexivity]); auto.
Qed.

Lemma httpEcho_other_kind_witness :
  httpEcho "v" "bogus" http.response _ http.newResponse
    (exampleRequest "GET" "/") exampleWorld
  = (http.newResponse, exampleWorld, Panicked "something went wrong, not cool!").
Proof.
  apply (proj1 (httpEcho_other_kind "v" "bogus" http.response _ http.newResponse
                  (exampleRequest "GET" "/") exampleWorld));
    discriminate.
Defined.

(** ** Start-up *)

Lemma main_neither (cl : CommandLine) (world : World) :
  textFlag cl = ""%string -> envFlag cl = ""%string ->
  main cl world = (complain "Missing -text or -env option!" world, Exit 127).
Proof. intros Ht He. unfold main. rewrite Ht, He. reflexivity. Qed.

Lemma main_too_many (cl : CommandLine) (world : World) :
  textFlag cl <> ""%string \/ envFlag cl <> ""%string -> Args cl <> [] ->
  main cl world = (complain "Too many arguments!" world, Exit 127).
Proof.
  intros Hflag Hargs. unfold main.
  replace (String.eqb (textFlag cl) "" && String.eqb (envFlag cl) "") with false.
  2:{ destruct (String.eqb_spec (textFlag cl) ""), (String.eqb_spec (envFlag cl) "");
        try reflexivity. tauto. }
  destruct (Args cl) as [|a args]; [contradiction|]. reflexivity.
Qed.

(** The line of the log that says the server is listening. *)
Lemma Printf_listening (addr : string) (world : World) :
  log.Printf ("[INFO] server is listening on %s" +:+ NL) [fmt.Str addr] world
  = listening addr world.
Proof.
  unfold log.Printf.
  change (fmt.Sprintf ("[INFO] server is listening on %s" +:+ NL) [fmt.Str addr])
    with ("[INFO] server is listening on " +:+ addr +:+ NL).
  replace (lastByte ("[INFO] server is listening on " +:+ addr +:+ NL))
    with (Some "010"%char)
    by (rewrite <- append_assoc; symmetry; apply lastByte_app).
  reflexivity.
Qed.

Lemma main_text (cl : CommandLine) (world : World) :
  textFlag cl <> ""%string -> Args cl = [] ->
  main cl world
  = (listening (listenFlag cl) world,
     ListenAndServe (listenFlag cl) (routes (textFlag cl) "text")).
Proof.
  intros Ht Hargs. unfold main. rewrite Hargs, Printf_listening.
  destruct (String.eqb_spec (textFlag cl) ""); [contradiction|]. reflexivity.
Qed.

Lemma main_env (cl : CommandLine) (world : World) :
  textFlag cl = ""%string -> envFlag cl <> ""%string -> Args cl = [] ->
  main cl world
  = (listening (listenFlag cl) world,
     ListenAndServe (listenFlag cl) (routes (envFlag cl) "env")).
Proof.
  intros Ht He Hargs. unfold main. rewrite Hargs, Ht, Printf_listening.
  destruct (String.eqb_spec (envFlag cl) ""); [contradiction|]. reflexivity.
Qed.

(** Whenever [main] starts the server, the echo handler it has installed
    holds a non-empty value and has kind [text] or [env]. *)
Lemma main_kind (cl : CommandLine) (world0 world1 : World) (addr : string)
  (mux : http.ServeMux) :
  main cl world0 = (world1, ListenAndServe addr mux) ->
  exists v kind, (kind = "text"%string \/ kind = "env"%string)
                 /\ v <> ""%string /\ mux = routes v kind.
Proof.
  intros Hmain.
  destruct (String.eqb_spec (textFlag cl) "") as [Ht|Ht].
  - destruct (String.eqb_spec (envFlag cl) "") as [He|He].
    + rewrite main_neither in Hmain by assumption. discriminate.
    + destruct (Args cl) as [|a args] eqn:Hargs.
      * rewrite main_env in Hmain by assumption. injection Hmain as _ _ <-.
        exists (envFlag cl), "env"%string. auto.
      * rewrite main_too_many in Hmain by (auto; congruence). discriminate.
  - destruct (Args cl) as [|a args] eqn:Hargs.
    + rewrite main_text in Hmain by assumption. injection Hmain as _ _ <-.
      exists (textFlag cl), "text"%string. auto.
    + rewrite main_too_many in Hmain by (auto; congruence). discriminate.
Qed.

(** C7, as amended. Start-up fails with exit code 127 exactly when both the
    [text] and the [env] flag are empty or a positional argument is given; it
    then writes one message, a non-empty line, to the error stream and does
    not get to start the server.  In every other case (at least one of the
    two flags non-empty, both included, and no positional argument) the
    server is started on the [listen] address, and all that has been written
    by then is the line of the log that says so. *)
Theorem main_validation (cl : CommandLine) (world : World) :
  (snd (main cl world) = Exit 127
     <-> (textFlag cl = ""%string /\ envFlag cl = ""%string) \/ Args cl <> [])
  /\ (snd (main cl world) = Exit 127 ->
        exists msg, msg <> ""%string /\ fst (main cl world) = complain msg world)
  /\ (snd (main cl world) <> Exit 127 ->
        exists mux,
          main cl world
          = (listening (listenFlag cl) world, ListenAndServe (listenFlag cl) mux)).
Proof.
  destruct (String.eqb_spec (textFlag cl) "") as [Ht|Ht];
    [destruct (String.eqb_spec (envFlag cl) "") as [He|He]|].
  - rewrite main_neither by assumption. cbn [fst snd].
    repeat split; auto.
    + intros _. eexists. split; [|reflexivity]. discriminate.
    + intros C. contradiction.
  - destruct (Args cl) as [|a args] eqn:Hargs.
    + rewrite main_env by assumption. cbn [fst snd]. repeat split.
      * discriminate.
      * intros [[_ E]|E]; congruence.
      * discriminate.
      * intros _. eexists. reflexivity.
    + rewrite main_too_many by (auto; congruence). cbn [fst snd]. repeat split.
      * intros _. right. discriminate.
      * intros _. eexists. split; [|reflexivity]. discriminate.
      * intros C. contradiction.
  - destruct (Args cl) as [|a args] eqn:Hargs.
    + rewrite main_text by assumption. cbn [fst snd]. repeat split.
      * discriminate.
      * intros [[E _]|E]; congruence.
      * discriminate.
      * intros _. eexists. reflexivity.
    + rewrite main_too_many by (auto; congruence). cbn [fst snd]. repeat split.
      * intros _. right. discriminate.
      * intros _. eexists. split; [|reflexivity]. discriminate.
      * intros C. contradiction.
Qed.

Lemma main_validation_witness :
  exists msg, msg <> ""%string
    /\ fst (main (commandLine "" "" []) exampleWorld) = complain msg exampleWorld.
Proof.
  apply (proj1 (proj2 (main_validation (commandLine "" "" []) exampleWorld))).
  reflexivity.
Defined.

(** C7, as stated, fails: with both flags non-empty and no positional
    argument the configuration is not one with exactly one flag, and yet
    start-up does not fail: the server is started. *)
Lemma main_validation_both_flags :
  ~ (snd (main (commandLine "a" "B" []) exampleWorld) = Exit 127
     <-> ~ exactly_one_flag (commandLine "a" "B" [])).
Proof.
  intros [_ Hfail].
  assert (E : snd (main (commandLine "a" "B" []) exampleWorld) = Exit 127).
  { apply Hfail. intros [[[_ C]|[C _]] _]; discriminate C. }
  discriminate E.
Qed.

(** C9, as amended. If both the [text] and the [env] flag are non-empty and
    no positional argument is given, start-up succeeds: [main] logs that the
    server is listening and starts it, set up with the value of [text] and
    kind [text]: the literal text takes precedence over the name of the
    environment variable. *)
Theorem main_text_precedence (cl : CommandLine) (world : World) :
  textFlag cl <> ""%string -> envFlag cl <> ""%string -> Args cl = [] ->
  main cl world
  = (listening (listenFlag cl) world,
     ListenAndServe (listenFlag cl)
       (http.HandleFunc
          (http.HandleFunc http.NewServeMux "/"
             (httpLog stdoutW (withAppHeaders (httpEcho (textFlag cl) "text"))))
          "/health" (withAppHeaders httpHealth))).
Proof. intros Ht _ Hargs. now apply main_text. Qed.

Lemma main_text_precedence_witness :
  main (commandLine "a" "HOME" []) exampleWorld
  = (listening ":5678" exampleWorld,
     ListenAndServe ":5678"
       (http.HandleFunc
          (http.HandleFunc http.NewServeMux "/"
             (httpLog stdoutW (withAppHeaders (httpEcho "a" "text"))))
          "/health" (withAppHeaders httpHealth))).
Proof.
  apply (main_text_precedence (commandLine "a" "HOME" []) exampleWorld);
    [discriminate | discriminate | reflexivity].
Defined.

(** C9, as stated, fails: with both flags non-empty and one positional
    argument, start-up fails with exit code 127. *)
Lemma main_both_flags_extra_argument :
  textFlag (commandLine "a" "HOME" ["x"%string]) <> ""%string
  /\ envFlag (commandLine "a" "HOME" ["x"%string]) <> ""%string
  /\ main (commandLine "a" "HOME" ["x"%string]) exampleWorld
     = (complain "Too many arguments!" exampleWorld, Exit 127).
Proof. repeat split; discriminate. Qed.

(** ** Routing *)

Lemma routes_match_health (v kind : string) :
  http.ServeMux_match (routes v kind) "/health"
  = Some {| http.h := withAppHeaders httpHealth; http.pattern := "/health" |}.
Proof. reflexivity. Qed.

Lemma routes_match_root (v kind path : string) :
  String.prefix "/" path = true -> path <> "/health"%string ->
  http.ServeMux_match (routes v kind) path
  = Some {| http.h := httpLog stdoutW (withAppHeaders (httpEcho v kind));
            http.pattern := "/" |}.
Proof.
  intros Hprefix Hpath. unfold http.ServeMux_match, routes, http.HandleFunc.
  cbn [http.m http.es http.NewServeMux http.lookup_pattern].
  destruct (String.eqb_spec "/health" path) as [E|_]; [congruence|].
  destruct (String.eqb "/" path); [reflexivity|].
  change (http.endsInSlash "/health") with false.
  change (http.endsInSlash "/") with true.
  cbn [http.appendSorted List.find http.pattern]. now rewrite Hprefix.
Qed.

(** The routes of [main]: which entry a path matches. *)
Lemma routes_match (v kind path : string) :
  http.ServeMux_match (routes v kind) path
  = if String.eqb path "/health" then Some healthEntry
    else if String.prefix "/" path then Some (rootEntry v kind)
    else None.
Proof.
  destruct (String.eqb_spec path "/health") as [->|E]; [reflexivity|].
  destruct (String.prefix "/" path) eqn:Hprefix.
  - now apply routes_match_root.
  - unfold http.ServeMux_match, routes, http.HandleFunc.
    cbn [http.m http.es http.NewServeMux http.lookup_pattern].
    destruct (String.eqb_spec "/health" path) as [E'|_]; [congruence|].
    destruct (String.eqb_spec "/" path) as [<-|_]; [discriminate Hprefix|].
    change (http.endsInSlash "/health") with false.
    change (http.endsInSlash "/") with true.
    cbn [http.appendSorted List.find http.pattern]. now rewrite Hprefix.
Qed.

Lemma routes_registered (v kind pattern : string) :
  http.registered (routes v kind) pattern
  = String.eqb "/health" pattern || String.eqb "/" pattern.
Proof.
  unfold http.registered, routes, http.HandleFunc.
  cbn [http.m http.NewServeMux http.lookup_pattern].
  destruct (String.eqb "/health" pattern); [reflexivity|].
  destruct (String.eqb "/" pattern); reflexivity.
Qed.

(** No path with a slash after it is one of the two patterns, unless the
    path is empty: the mux of [main] never redirects to add a slash. *)
Lemma routes_shouldRedirect (v kind path : string) :
  http.shouldRedirect (routes v kind) path = false.
Proof.
  unfold http.shouldRedirect. destruct (http.registered (routes v kind) path); [reflexivity|].
  destruct path as [|c path]; [reflexivity|]. cbn [String.length Nat.eqb].
  rewrite routes_registered.
  destruct (String.eqb_spec "/health" (String c path +:+ "/")) as [E|_].
  - apply (f_equal lastByte) in E. rewrite lastByte_app in E. discriminate E.
  - destruct (String.eqb_spec "/" (String c path +:+ "/")) as [E|_]; [|reflexivity].
    rewrite append_String in E. destruct path; discriminate E.
Qed.

Lemma routes_Handler (v kind : string) (r : http.Request) :
  http.ServeMux_Handler (routes v kind) r
  = if String.eqb (http.Method r) "CONNECT"
    then http.ServeMux_handler (routes v kind) (url.Path (http.URL r))
    else if negb (String.eqb (http.cleanPath (url.Path (http.URL r)))
                    (url.Path (http.URL r)))
         then http.RedirectTo (http.cleanPath (url.Path (http.URL r)))
         else http.ServeMux_handler (routes v kind) (url.Path (http.URL r)).
Proof. unfold http.ServeMux_Handler. now rewrite !routes_shouldRedirect. Qed.

Lemma routes_Handler_health (v kind : string) (r : http.Request) :
  url.Path (http.URL r) = "/health"%string ->
  http.ServeMux_Handler (routes v kind) r = http.Handle healthEntry.
Proof.
  intros Hpath. rewrite routes_Handler, Hpath.
  destruct (String.eqb (http.Method r) "CONNECT"); reflexivity.
Qed.

(** A request for which the mux of [main] calls a handler: the health
    handler for the path [/health], the logged echo handler otherwise. *)
Lemma routes_dispatched (v kind : string) (r : http.Request) :
  dispatched (routes v kind) r = true ->
  http.ServeMux_Handler (routes v kind) r
  = http.Handle (if echoed r then rootEntry v kind else healthEntry).
Proof.
  unfold dispatched, echoed. rewrite routes_Handler. unfold http.ServeMux_handler.
  rewrite routes_match.
  destruct (String.eqb (http.Method r) "CONNECT");
    [|destruct (negb (String.eqb (http.cleanPath (url.Path (http.URL r)))
                        (url.Path (http.URL r)))); [discriminate|]];
    destruct (String.eqb (url.Path (http.URL r)) "/health"); cbn [negb];
    try reflexivity;
    destruct (String.prefix "/" (url.Path (http.URL r))); try discriminate; reflexivity.
Qed.

(** Paths in canonical form, and those of [CONNECT] requests, are
    dispatched by the mux of [main] when they start with a slash. *)
Lemma routes_canonical (v kind : string) (r : http.Request) :
  http.Method r = "CONNECT"%string
  \/ http.cleanPath (url.Path (http.URL r)) = url.Path (http.URL r) ->
  String.prefix "/" (url.Path (http.URL r)) = true ->
  dispatched (routes v kind) r = true.
Proof.
  intros Hcanon Hprefix. unfold dispatched. rewrite routes_Handler.
  unfold http.ServeMux_handler. rewrite routes_match, Hprefix.
  destruct (String.eqb_spec (http.Method r) "CONNECT") as [_|Hm].
  - destruct (String.eqb (url.Path (http.URL r)) "/health"); reflexivity.
  - destruct Hcanon as [C|C]; [contradiction|]. rewrite C, String.eqb_refl. cbn [negb].
    destruct (String.eqb (url.Path (http.URL r)) "/health"); reflexivity.
Qed.

(** C6. For every request (whatever its method and its path) the health
    handler makes one write, of [{"status":"ok"}] followed by a newline, and
    returns; behind a recorder the status recorded is 200; on the server's
    response object the status is 200 and the body is that line.  The
    handler takes no configuration: whatever command line [main] accepts,
    a request for [/health] is answered in this way. *)
Theorem httpHealth_spec (W : Type) (RW : http.ResponseWriter W)
  (w : W) (r : http.Request) (world : World) :
  httpHealth W RW w r world
    = (fst (http.ResponseWriter_Write w (bytes (healthBody +:+ NL))), world, Returned)
  /\ withAppHeaders httpHealth (metaResponseWriter W) _ (fresh w) r world
    = ({| writer := fst (http.ResponseWriter_Write w (bytes (healthBody +:+ NL)));
          status := 200; length := len_string healthBody + 1 |}, world, Returned)
  /\ httpHealth http.response _ http.newResponse r world
    = ({| http.handlerHeader := ∅; http.wroteHeader := true;
          http.status := 200; http.written := bytes (healthBody +:+ NL) |}, world, Returned)
  /\ (forall cl world0 world1 addr mux,
        main cl world0 = (world1, ListenAndServe addr mux) ->
        url.Path (http.URL r) = "/health"%string ->
        http.ServeMux_ServeHTTP mux http.response http.newResponse r world
        = Some ({| http.handlerHeader := ∅; http.wroteHeader := true;
                   http.status := 200; http.written := bytes (healthBody +:+ NL) |},
                world, Returned)).
Proof.
  split; [apply httpHealth_eq|]. split; [|split].
  - apply prints_recorded, prints_health.
  - rewrite httpHealth_eq. reflexivity.
  - intros cl world0 world1 addr mux Hmain Hpath.
    destruct (main_kind _ _ _ _ _ Hmain) as (v & kind & _ & _ & ->).
    unfold http.ServeMux_ServeHTTP. rewrite (routes_Handler_health _ _ _ Hpath).
    cbn [http.h healthEntry]. rewrite (prints_health r world). reflexivity.
Qed.

Lemma httpHealth_spec_witness :
  http.ServeMux_ServeHTTP (routes "hi" "text") http.response http.newResponse
    (exampleRequest "POST" "/health") exampleWorld
  = Some ({| http.handlerHeader := ∅; http.wroteHeader := true; http.status := 200;
             http.written := bytes (healthBody +:+ NL) |}, exampleWorld, Returned).
Proof.
  apply (proj2 (proj2 (proj2 (httpHealth_spec http.response _ http.newResponse
                                (exampleRequest "POST" "/health") exampleWorld)))
           (commandLine "hi" "" []) exampleWorld (listening ":5678" exampleWorld)
           ":5678"%string (routes "hi" "text")); reflexivity.
Defined.

(** ** The access logger *)

(** [httpLog] in one equation: the inner handler runs on a fresh recorder
    after the clock has been read once; whether it returns or panics, the
    clock is read again and one line is added to what the standard output
    holds when the inner handler is done; then the outcome of the inner
    handler is passed on. *)
Lemma httpLog_eq (h : http.HandlerFunc) (W : Type) (RW : http.ResponseWriter W)
  (w : W) (r : http.Request) (world world' : World)
  (mrw : metaResponseWriter W) (outcome : Outcome) :
  h (metaResponseWriter W) _ (fresh w) r (snd (time_Now world)) = (mrw, world', outcome) ->
  httpLog os.Stdout h W RW w r world
  = (writer mrw,
     logged 1
       (logLine (clock world' (ticks world')) r (status mrw) (length mrw)
          (time.Sub (clock world' (ticks world')) (clock world (ticks world))))
       world',
     outcome).
Proof.
  intros Hh. unfold httpLog. unfold fresh in Hh.
  destruct (time_Now world) as [start world1] eqn:Hnow.
  unfold time_Now in Hnow. injection Hnow as <- <-.
  cbn [snd] in Hh. rewrite Hh. reflexivity.
Qed.

(** A handler that prints one line, under the access logger. *)
Lemma httpLog_prints (h : http.HandlerFunc) (s : string) (W : Type)
  (RW : http.ResponseWriter W) (w : W) (r : http.Request) (world : World) :
  prints r (snd (time_Now world)) h s ->
  httpLog os.Stdout h W RW w r world
  = (fst (http.ResponseWriter_Write w (bytes (s +:+ NL))),
     logged 2
       (logLine (clock world (S (ticks world))) r 200 (len (bytes (s +:+ NL)))
          (time.Sub (clock world (S (ticks world))) (clock world (ticks world))))
       world,
     Returned).
Proof.
  intros Hh.
  rewrite (httpLog_eq h W RW w r world _ _ _ (prints_recorded h s w r _ Hh)).
  rewrite len_line. reflexivity.
Qed.

(** The monotonic clock does not run backwards, and then the duration
    between two of its readings is not negative, also when the difference
    does not fit in an [int64]. *)
Lemma Sub_nonneg (t u : time.Time) : time.ext u <= time.ext t -> 0 <= time.Sub t u.
Proof.
  intros Hle. unfold time.Sub, time.maxDuration, time.minDuration.
  destruct (Z.ltb_spec (time.int64 (time.ext t - time.ext u)) 0) as [Hd|Hd];
    destruct (Z.gtb_spec (time.ext t) (time.ext u)) as [Hg|Hg]; cbn [andb].
  - lia.
  - replace (time.ext t - time.ext u) with 0 in Hd by lia. cbv in Hd. discriminate.
  - destruct (Z.gtb_spec (time.int64 (time.ext t - time.ext u)) 0);
      destruct (Z.ltb_spec (time.ext t) (time.ext u)); cbn [andb]; lia.
  - destruct (Z.gtb_spec (time.int64 (time.ext t - time.ext u)) 0);
      destruct (Z.ltb_spec (time.ext t) (time.ext u)); cbn [andb]; lia.
Qed.

(** One request on the routes of [main], on any response writer. *)
Lemma serve_routes (v kind : string) (W : Type) (RW : http.ResponseWriter W) (w : W)
  (r : http.Request) (world : World) :
  kind = "text"%string \/ kind = "env"%string ->
  dispatched (routes v kind) r = true ->
  let s := if echoed r
           then if String.eqb kind "text" then v
                else getEnvStrOrDefault v ("failed resolving env var '" +:+ v +:+ "'") world
           else healthBody in
  http.ServeMux_ServeHTTP (routes v kind) W w r world
  = Some (fst (http.ResponseWriter_Write w (bytes (s +:+ NL))),
          (if echoed r
           then logged 2
                  (logLine (clock world (S (ticks world))) r 200 (len (bytes (s +:+ NL)))
                     (time.Sub (clock world (S (ticks world))) (clock world (ticks world))))
                  world
           else world),
          Returned).
Proof.
  intros Hkind Hd. cbv zeta. unfold http.ServeMux_ServeHTTP.
  rewrite (routes_dispatched _ _ _ Hd).
  destruct (echoed r); cbn [http.h rootEntry healthEntry].
  - unfold stdoutW. destruct Hkind as [-> | ->]; cbn [String.eqb Ascii.eqb Bool.eqb].
    + now rewrite (httpLog_prints _ v) by apply prints_text.
    + rewrite (httpLog_prints _ (resolved v world))
        by apply (prints_env r (snd (time_Now world)) v).
      unfold getEnvStrOrDefault, os.LookupEnv, resolved.
      destruct (environ world !! v); reflexivity.
  - now rewrite (prints_health r world).
Qed.

(** C3, as amended. (1) Whatever handler [httpLog] wraps, and whether that
    handler returns or panics, the wrapped call makes exactly one write to
    the log sink, after the inner handler is done (the write is added to
    what the sink holds then, and carries the status and the length the
    recorder holds then) and before the wrapped call is over (it is part of
    its result).  What is written ends in a newline and contains the method,
    the path and the protocol of the request, the recorded status, the
    recorded length and the duration, which is not negative when the
    monotonic clock has not run backwards; it is exactly one line when none
    of the fields of the request that it prints holds a newline.  (2) This is
    the case of every request the mux of [main] dispatches to the route [/];
    the status logged is then 200.  (3) A request the mux dispatches to the
    route [/health] is answered without anything being written to the log
    sink. *)
Theorem access_log_spec :
  (forall (h : http.HandlerFunc) (W : Type) (RW : http.ResponseWriter W) (w : W)
          (r : http.Request) (world world' : World)
          (mrw : metaResponseWriter W) (outcome : Outcome),
      h (metaResponseWriter W) _ (fresh w) r (snd (time_Now world))
        = (mrw, world', outcome) ->
      let start := clock world (ticks world) in
      let end_ := clock world' (ticks world') in
      let line := logLine end_ r (status mrw) (length mrw) (time.Sub end_ start) in
      httpLog stdoutW h W RW w r world = (writer mrw, logged 1 line world', outcome)
      /\ stdout (logged 1 line world') = stdout world' ++ [bytes line]
      /\ (exists pre, line = pre +:+ NL)
      /\ (plain r -> newlines line = 1%nat)
      /\ contains line (http.Method r)
      /\ contains line (url.Path (http.URL r))
      /\ contains line (http.Proto r)
      /\ contains line (time.itoa (status mrw))
      /\ contains line (time.itoa (length mrw))
      /\ contains line (time.Duration_String (time.Sub end_ start))
      /\ (time.ext start <= time.ext end_ -> 0 <= time.Sub end_ start))
  /\ (forall (cl : CommandLine) (world0 world1 : World) (addr : string)
             (mux : http.ServeMux),
      main cl world0 = (world1, ListenAndServe addr mux) ->
      forall (W : Type) (RW : http.ResponseWriter W) (w : W)
             (r : http.Request) (world : World) (e : http.muxEntry),
        http.ServeMux_Handler mux r = http.Handle e ->
        http.pattern e = "/"%string ->
        time.ext (clock world (ticks world)) <= time.ext (clock world (S (ticks world))) ->
        exists body : list byte,
          let dur := time.Sub (clock world (S (ticks world))) (clock world (ticks world)) in
          let line := logLine (clock world (S (ticks world))) r 200 (len body) dur in
          http.ServeMux_ServeHTTP mux W w r world
            = Some (fst (http.ResponseWriter_Write w body), logged 2 line world, Returned)
          /\ stdout (logged 2 line world) = stdout world ++ [bytes line]
          /\ (plain r -> newlines line = 1%nat)
          /\ 0 <= dur)
  /\ (forall (cl : CommandLine) (world0 world1 : World) (addr : string)
             (mux : http.ServeMux),
      main cl world0 = (world1, ListenAndServe addr mux) ->
      forall (W : Type) (RW : http.ResponseWriter W) (w : W)
             (r : http.Request) (world : World) (e : http.muxEntry),
        http.ServeMux_Handler mux r = http.Handle e ->
        http.pattern e = "/health"%string ->
        exists w' : W,
          http.ServeMux_ServeHTTP mux W w r world = Some (w', world, Returned)).
Proof.
  assert (D : forall v kind r e,
             http.ServeMux_Handler (routes v kind) r = http.Handle e ->
             dispatched (routes v kind) r = true
             /\ e = (if echoed r then rootEntry v kind else healthEntry)).
  { intros v kind r e He.
    assert (Hd : dispatched (routes v kind) r = true)
      by (unfold dispatched; now rewrite He).
    split; [assumption|]. rewrite (routes_dispatched _ _ _ Hd) in He.
    now injection He as <-. }
  assert (N : forall end_ r status length dur,
             plain r -> newlines (logLine end_ r status length dur) = 1%nat).
  { intros end_ r status length dur (H1 & H2 & H3 & H4 & H5 & H6).
    rewrite logLine_newlines, H1, H2, H3, H4, H5, H6. reflexivity. }
  split; [|split].
  - intros h W RW w r world world' mrw outcome Hh. cbv zeta.
    split; [now apply httpLog_eq|]. split; [reflexivity|].
    split; [apply logLine_newline|]. split; [apply N|].
    pose proof (logLine_contains (clock world' (ticks world')) r (status mrw) (length mrw)
                  (time.Sub (clock world' (ticks world')) (clock world (ticks world)))) as C.
    cbv zeta in C. destruct C as (C1 & C2 & C3 & C4 & C5 & C6).
    repeat (split; [assumption|]). apply Sub_nonneg.
  - intros cl world0 world1 addr mux Hmain W RW w r world e He Hpattern Hclock.
    destruct (main_kind _ _ _ _ _ Hmain) as (v & kind & Hkind & _ & ->).
    destruct (D _ _ _ _ He) as [Hd ->].
    pose proof (serve_routes v kind W RW w r world Hkind Hd) as Hs. cbv zeta in Hs.
    destruct (echoed r); [|discriminate Hpattern].
    eexists. cbv zeta. split; [exact Hs|]. split; [reflexivity|].
    split; [apply N|]. now apply Sub_nonneg.
  - intros cl world0 world1 addr mux Hmain W RW w r world e He Hpattern.
    destruct (main_kind _ _ _ _ _ Hmain) as (v & kind & Hkind & _ & ->).
    destruct (D _ _ _ _ He) as [Hd ->].
    pose proof (serve_routes v kind W RW w r world Hkind Hd) as Hs. cbv zeta in Hs.
    destruct (echoed r); [discriminate Hpattern|].
    eexists. exact Hs.
Qed.

Lemma access_log_spec_witness :
  exists body : list byte,
    let world := exampleWorld in
    let r := exampleRequest "GET" "/" in
    let dur := time.Sub (clock world (S (ticks world))) (clock world (ticks world)) in
    let line := logLine (clock world (S (ticks world))) r 200 (len body) dur in
    http.ServeMux_ServeHTTP (routes "hi" "text") http.response http.newResponse r world
      = Some (fst (http.ResponseWriter_Write http.newResponse body),
              logged 2 line world, Returned)
    /\ stdout (logged 2 line world) = stdout world ++ [bytes line]
    /\ (plain r -> newlines line = 1%nat)
    /\ 0 <= dur.
Proof.
  apply (proj1 (proj2 access_log_spec) (commandLine "hi" "" []) exampleWorld
           (listening ":5678" exampleWorld) ":5678"%string (routes "hi" "text") eq_refl
           http.response _ http.newResponse (exampleRequest "GET" "/") exampleWorld
           (rootEntry "hi" "text")).
  - reflexivity.
  - reflexivity.
  - vm_compute. discriminate.
Defined.

(** C3, as stated, fails: the server of [main] completes a request for
    [/health] and the log sink is as it was before, so that no line at all
    has been emitted for it. *)
Lemma health_request_not_logged :
  main (commandLine "hi" "" []) exampleWorld
    = (listening ":5678" exampleWorld, ListenAndServe ":5678" (routes "hi" "text"))
  /\ http.ServeMux_ServeHTTP (routes "hi" "text") http.response http.newResponse
       (exampleRequest "GET" "/health") (listening ":5678" exampleWorld)
     = Some ({| http.handlerHeader := ∅; http.wroteHeader := true; http.status := 200;
                http.written := bytes (healthBody +:+ NL) |},
             listening ":5678" exampleWorld, Returned)
  /\ ~ (exists line,
          stdout (listening ":5678" exampleWorld)
          = stdout (listening ":5678" exampleWorld) ++ [line]).
Proof.
  split; [reflexivity|]. split; [reflexivity|].
  intros [line Hline]. discriminate Hline.
Qed.

(** C3 fails in a second way, for a request that is logged: the path of a
    request may hold a newline (the server decodes [%0A] into one), and what
    is written to the log sink for it is then one write that makes two
    lines. *)
Lemma newline_in_path_two_lines :
  let r := exampleRequest "GET" ("/a" +:+ NL +:+ "b") in
  let line := logLine (exampleClock 1) r 200 3 52083 in
  http.ServeMux_ServeHTTP (routes "hi" "text") http.response http.newResponse
    r exampleWorld
  = Some ({| http.handlerHeader := ∅; http.wroteHeader := true; http.status := 200;
             http.written := bytes ("hi" +:+ NL) |},
          logged 2 line exampleWorld, Returned)
  /\ newlines line = 2%nat.
Proof. split; reflexivity. Qed.

(** C5. For every request handled by the echo handler or by the health
    handler under the access logger, the length recorded for the request,
    which is the length the log line carries, is the number of bytes of the
    body written to the response: the bytes [body] that the request has
    added to the response.  Echoing the literal [hi] records the length 3. *)
Theorem recorded_length_spec (w : http.response) (r : http.Request) (world : World) :
  let end_ := clock world (S (ticks world)) in
  let dur := time.Sub end_ (clock world (ticks world)) in
  (forall v kind : string,
      exists (body : list byte) (status : Z) (w' : http.response) (outcome : Outcome),
        httpLog stdoutW (withAppHeaders (httpEcho v kind)) http.response _ w r world
          = (w', logged 2 (logLine end_ r status (len body) dur) world, outcome)
        /\ http.written w' = http.written w ++ body)
  /\ (exists (body : list byte) (w' : http.response),
        httpLog stdoutW (withAppHeaders httpHealth) http.response _ w r world
          = (w', logged 2 (logLine end_ r 200 (len body) dur) world, Returned)
        /\ http.written w' = http.written w ++ body)
  /\ (exists w' : http.response,
        httpLog stdoutW (withAppHeaders (httpEcho "hi" "text")) http.response _ w r world
          = (w', logged 2 (logLine end_ r 200 3 dur) world, Returned)
        /\ http.written w' = http.written w ++ ["h"%byte; "i"%byte; x0a]).
Proof.
  cbv zeta. unfold stdoutW. split; [|split].
  - intros v kind.
    destruct (String.eqb_spec kind "text") as [->|Ht];
      [|destruct (String.eqb_spec kind "env") as [->|He]].
    + exists (bytes (v +:+ NL)), 200. do 2 eexists.
      rewrite (httpLog_prints _ v) by apply prints_text.
      split; [reflexivity|]. apply response_Write_written.
    + exists (bytes (resolved v (snd (time_Now world)) +:+ NL)), 200. do 2 eexists.
      rewrite (httpLog_prints _ (resolved v (snd (time_Now world)))) by apply prints_env.
      split; [reflexivity|]. apply response_Write_written.
    + exists [], 0, w, (Panicked "something went wrong, not cool!").
      split; [|now rewrite app_nil_r].
      rewrite (httpLog_eq _ _ _ w r world (snd (time_Now world)) (fresh w)
                 (Panicked "something went wrong, not cool!")).
      * reflexivity.
      * unfold withAppHeaders. now apply httpEcho_other_eq.
  - exists (bytes (healthBody +:+ NL)). eexists.
    rewrite (httpLog_prints _ healthBody) by apply prints_health.
    split; [reflexivity|]. apply response_Write_written.
  - eexists. rewrite (httpLog_prints _ "hi") by apply prints_text.
    split; [reflexivity|]. apply response_Write_written.
Qed.

(** * Further properties of the program *)

(** ** [getEnvStrOrDefault] *)

(** X1. [getEnvStrOrDefault] returns the value of a variable that is set,
    the empty string included (the default is not used for it), and the
    default for a variable that is not set; and the [env] branch of the echo
    handler prints what [getEnvStrOrDefault] returns with the failure
    message as the default. *)
Theorem getEnvStrOrDefault_spec (k d : string) (world : World) :
  (forall v, environ world !! k = Some v -> getEnvStrOrDefault k d world = v)
  /\ (environ world !! k = Some ""%string -> getEnvStrOrDefault k d world = ""%string)
  /\ (environ world !! k = None -> getEnvStrOrDefault k d world = d)
  /\ (forall (W : Type) (RW : http.ResponseWriter W) (w : W) (r : http.Request),
        httpEcho k "env" W RW w r world
        = (fst (http.ResponseWriter_Write w
                  (bytes (getEnvStrOrDefault k ("failed resolving env var '" +:+ k +:+ "'")
                            world +:+ NL))),
           world, Returned)).
Proof.
  assert (G : forall d', getEnvStrOrDefault k d' world
                         = match environ world !! k with Some v => v | None => d' end).
  { intros d'. unfold getEnvStrOrDefault, os.LookupEnv.
    destruct (environ world !! k); reflexivity. }
  repeat split.
  - intros v E. now rewrite G, E.
  - intros E. now rewrite G, E.
  - intros E. now rewrite G, E.
  - intros W RW w r. rewrite httpEcho_env_eq, G. reflexivity.
Qed.

Lemma getEnvStrOrDefault_spec_witness :
  getEnvStrOrDefault "HOME" "none" exampleWorld = "/root"%string.
Proof.
  apply (proj1 (getEnvStrOrDefault_spec "HOME" "none" exampleWorld) "/root"%string).
  vm_compute. reflexivity.
Defined.

(** ** The recorder and the calls of a handler *)

Section RecorderCalls.
Context {W : Type} {RW : http.ResponseWriter W}.

Lemma call_recorder (mrw : metaResponseWriter W) (c : Call) :
  writer (fst (call mrw c)) = fst (call (writer mrw) c)
  /\ snd (call mrw c) = snd (call (writer mrw) c).
Proof.
  destruct c as [|s|b]; cbn [call http.ResponseWriter_Header http.ResponseWriter_Write
    http.ResponseWriter_WriteHeader metaResponseWriter_ResponseWriter].
  - unfold metaResponseWriter_Header.
    destruct (http.ResponseWriter_Header (writer mrw)); split; reflexivity.
  - split; reflexivity.
  - rewrite metaResponseWriter_Write_eq.
    destruct (http.ResponseWriter_Write (writer mrw) b) as [w' [n err]].
    split; reflexivity.
Qed.

Lemma calls_recorder (cs : list Call) (mrw : metaResponseWriter W) :
  writer (fst (calls mrw cs)) = fst (calls (writer mrw) cs)
  /\ snd (calls mrw cs) = snd (calls (writer mrw) cs).
Proof.
  revert mrw. induction cs as [|c cs IH]; intros mrw; [split; reflexivity|].
  cbn [calls]. destruct (call_recorder mrw c) as [Hw Hr].
  destruct (call mrw c) as [mrw1 reply1]. destruct (call (writer mrw) c) as [w1 reply1'].
  cbn [fst snd] in Hw, Hr. subst w1 reply1'.
  destruct (IH mrw1) as [Hw' Hr'].
  destruct (calls mrw1 cs) as [mrw2 replies]. destruct (calls (writer mrw1) cs) as [w2 replies'].
  cbn [fst snd] in *. subst. split; reflexivity.
Qed.

(** X2. The recorder is transparent: whatever sequence of [Header],
    [WriteHeader] and [Write] calls a handler makes on it, the underlying
    response writer ends up exactly as if the calls had been made on it
    directly, and every call returns what the underlying writer returns. *)
Theorem recorder_transparent (cs : list Call) (mrw : metaResponseWriter W) :
  writer (fst (calls mrw cs)) = fst (calls (writer mrw) cs)
  /\ snd (calls mrw cs) = snd (calls (writer mrw) cs).
Proof. apply calls_recorder. Qed.

Lemma calls_app (V : Type) (RV : http.ResponseWriter V) (v : V) (cs ds : list Call) :
  fst (calls v (cs ++ ds)) = fst (calls (fst (calls v cs)) ds).
Proof.
  revert v. induction cs as [|c cs IH]; intros v; [reflexivity|].
  cbn [calls app]. destruct (call v c) as [v1 reply]. specialize (IH v1).
  destruct (calls v1 (cs ++ ds)) as [v2 replies]. destruct (calls v1 cs) as [v3 replies'].
  cbn [fst] in *. exact IH.
Qed.

Lemma calls_ending_in_Write (cs : list Call) (b : list byte) (mrw : metaResponseWriter W) :
  length (fst (calls mrw (cs ++ [CallWrite b]))) = len b
  /\ status (fst (calls mrw (cs ++ [CallWrite b]))) <> 0.
Proof.
  rewrite (calls_app (metaResponseWriter W) _).
  set (mrw1 := fst (calls mrw cs)).
  cbn [calls call http.ResponseWriter_Write metaResponseWriter_ResponseWriter].
  rewrite metaResponseWriter_Write_eq.
  destruct (http.ResponseWriter_Write (writer mrw1) b) as [w' [n err]]. cbn [fst snd length status].
  split; [reflexivity|]. unfold http.StatusOK.
  destruct (Z.eqb_spec (status mrw1) 0); lia.
Qed.

(** X3. The recorded length is that of the last write, not the total: after
    any calls that end with a write of [b], the recorder holds the length of
    [b] and a status other than 0, whatever was written before. *)
Theorem recorder_last_write (cs : list Call) (b : list byte) (mrw : metaResponseWriter W) :
  length (fst (calls mrw (cs ++ [CallWrite b]))) = len b
  /\ status (fst (calls mrw (cs ++ [CallWrite b]))) <> 0.
Proof. apply calls_ending_in_Write. Qed.

(** X4. An explicit status survives the writes that follow it: after
    [WriteHeader(s)] with [s] other than 0 and a write, the status recorded
    is [s], not 200; the code 0 alone is taken for "no status yet" and is
    replaced by 200 at the write.  Of two [WriteHeader] calls the recorder
    keeps the second. *)
Theorem recorder_explicit_status (s s' : Z) (b : list byte) (mrw : metaResponseWriter W) :
  (s <> 0 ->
     status (fst (calls mrw [CallWriteHeader s; CallWrite b])) = s)
  /\ status (fst (calls mrw [CallWriteHeader 0; CallWrite b])) = 200
  /\ status (fst (calls mrw [CallWriteHeader s; CallWriteHeader s'])) = s'
  /\ length (fst (calls mrw [CallWriteHeader s])) = length mrw.
Proof.
  cbn [calls call http.ResponseWriter_Write http.ResponseWriter_WriteHeader
         metaResponseWriter_ResponseWriter].
  rewrite !metaResponseWriter_Write_eq. unfold metaResponseWriter_WriteHeader.
  cbn [writer status length].
  destruct (http.ResponseWriter_Write _ b) as [w1 [n1 e1]].
  destruct (http.ResponseWriter_Write _ b) as [w2 [n2 e2]].
  cbn [fst snd status length]. repeat split.
  intros Hs. destruct (Z.eqb_spec s 0); [contradiction|reflexivity].
Qed.

End RecorderCalls.

Lemma recorder_explicit_status_witness :
  status (fst (calls (fresh http.newResponse) [CallWriteHeader 404; CallWrite [x68]])) = 404.
Proof.
  apply (proj1 (recorder_explicit_status 404 0 [x68] (fresh http.newResponse))).
  discriminate.
Defined.

(** ** The recorder over the server's response object *)

Lemma response_calls_written (bs : list (list byte)) (w : http.response) :
  http.written (fst (calls w (map CallWrite bs))) = http.written w ++ concat bs.
Proof.
  revert w. induction bs as [|b bs IH]; intros w.
  - cbn. now rewrite app_nil_r.
  - cbn [map calls call http.ResponseWriter_Write http.response_ResponseWriter concat].
    pose proof (response_Write_written w b) as Hb.
    destruct (http.response_Write w b) as [w1 [n err]]. cbn [fst] in Hb.
    specialize (IH w1). destruct (calls w1 (map CallWrite bs)) as [w2 replies].
    cbn [fst] in *. rewrite IH, Hb. now rewrite app_assoc.
Qed.

(** X5. With several writes the recorded length falls short of the body:
    after the writes [bs] and then [b] through a fresh recorder, the response
    object has received all of them in order, the recorder holds the length
    of [b] alone, and this is the length of what has been added to the body
    only if the earlier writes were all empty. *)
Theorem recorder_length_several_writes (bs : list (list byte)) (b : list byte)
  (w : http.response) :
  let mrw := fst (calls (fresh w) (map CallWrite (bs ++ [b]))) in
  http.written (writer mrw) = http.written w ++ concat bs ++ b
  /\ length mrw = len b
  /\ (length mrw = len (concat bs ++ b) <-> concat bs = []).
Proof.
  cbv zeta.
  destruct (calls_recorder (map CallWrite (bs ++ [b])) (fresh w)) as [Hw _].
  rewrite Hw. cbn [fresh writer]. rewrite response_calls_written.
  rewrite map_app. cbn [map].
  destruct (calls_ending_in_Write (map CallWrite bs) b (fresh w)) as [Hl _].
  rewrite Hl. rewrite concat_app. cbn [concat]. rewrite app_nil_r.
  split; [reflexivity|]. split; [reflexivity|].
  unfold len. rewrite length_app. split.
  - intros E. apply length_zero_iff_nil. lia.
  - intros ->. reflexivity.
Qed.

(** X6. The status in the log can differ from the status sent: once the
    status line of the response has been written, a [WriteHeader(s)] through
    the recorder changes the recorded status to [s] while the response
    object ignores the call and keeps its status and its body. *)
Theorem recorder_late_WriteHeader (mrw : metaResponseWriter http.response) (s : Z) :
  http.wroteHeader (writer mrw) = true ->
  status (metaResponseWriter_WriteHeader mrw s) = s
  /\ writer (metaResponseWriter_WriteHeader mrw s) = writer mrw
  /\ length (metaResponseWriter_WriteHeader mrw s) = length mrw.
Proof.
  intros Hw. unfold metaResponseWriter_WriteHeader. cbn [writer status length].
  cbn [http.ResponseWriter_WriteHeader http.response_ResponseWriter].
  unfold http.response_WriteHeader. rewrite Hw. repeat split.
Qed.

Lemma recorder_late_WriteHeader_witness :
  let mrw := fst (metaResponseWriter_Write (fresh http.newResponse) [x68; x69; x0a]) in
  status (metaResponseWriter_WriteHeader mrw 500) = 500
  /\ writer (metaResponseWriter_WriteHeader mrw 500)
     = {| http.handlerHeader := ∅; http.wroteHeader := true; http.status := 200;
          http.written := [x68; x69; x0a] |}
  /\ length (metaResponseWriter_WriteHeader mrw 500) = 3.
Proof.
  exact (recorder_late_WriteHeader
           (fst (metaResponseWriter_Write (fresh http.newResponse) [x68; x69; x0a])) 500
           eq_refl).
Defined.

(** ** The access logger, further *)

(** X7. The format of the access log.  Whatever handler [httpLog] wraps, the
    line it adds to the standard output is, in this order and separated by
    single spaces: the time at the end as [YYYY/MM/DD HH:MM:SS], the host,
    the remote address, the method, path and protocol between double
    quotes, the recorded status, the recorded length, the user agent between
    double quotes, and the duration; then a newline. *)
Theorem httpLog_line_format (h : http.HandlerFunc) (W : Type) (RW : http.ResponseWriter W)
  (w : W) (r : http.Request) (world world' : World)
  (mrw : metaResponseWriter W) (outcome : Outcome) :
  h (metaResponseWriter W) _ (fresh w) r (snd (time_Now world)) = (mrw, world', outcome) ->
  let end_ := clock world' (ticks world') in
  stdout (snd (fst (httpLog stdoutW h W RW w r world)))
  = stdout world'
    ++ [bytes (time.Format end_ "2006/01/02 15:04:05" +:+ " " +:+ http.Host r +:+ " "
               +:+ http.RemoteAddr r +:+ " " +:+ DQ
               +:+ http.Method r +:+ " " +:+ url.Path (http.URL r) +:+ " " +:+ http.Proto r
               +:+ DQ +:+ " " +:+ time.itoa (status mrw) +:+ " " +:+ time.itoa (length mrw)
               +:+ " " +:+ DQ +:+ http.UserAgent r +:+ DQ +:+ " "
               +:+ time.Duration_String (time.Sub end_ (clock world (ticks world)))
               +:+ NL)].
Proof.
  intros Hh. cbv zeta. unfold stdoutW. rewrite (httpLog_eq _ _ _ _ _ _ _ _ _ Hh).
  cbn [fst snd logged stdout]. rewrite logLine_eq. reflexivity.
Qed.

Lemma httpLog_line_format_witness :
  stdout (snd (fst (httpLog stdoutW (withAppHeaders (httpEcho "hi" "text"))
                      http.response _ http.newResponse
                      (exampleRequest "GET" "/") exampleWorld)))
  = [bytes ("2026/10/30 09:05:07 localhost:5678 127.0.0.1:4242 " +:+ DQ
            +:+ "GET / HTTP/1.1" +:+ DQ +:+ " 200 3 " +:+ DQ +:+ "curl/8.0"
            +:+ DQ +:+ " 52.083" +:+ time.micro +:+ "s" +:+ NL)].
Proof.
  apply (httpLog_line_format (withAppHeaders (httpEcho "hi" "text"))
           http.response _ http.newResponse (exampleRequest "GET" "/")
           exampleWorld (snd (time_Now exampleWorld))
           {| writer := {| http.handlerHeader := ∅; http.wroteHeader := true;
                           http.status := 200; http.written := [x68; x69; x0a] |};
              status := 200; length := 3 |} Returned).
  reflexivity.
Defined.

(** X8. The access logger is transparent to the client: for the echo
    handler (of any value and kind, the panicking ones included) and for the
    health handler, the wrapped handler leaves the response writer as the
    handler alone leaves it and ends with the same outcome; the wrapping
    leaves the environment and the error stream as they are. *)
Theorem httpLog_transparent (v kind : string) (W : Type) (RW : http.ResponseWriter W)
  (w : W) (r : http.Request) (world : World) :
  (forall h, h = withAppHeaders (httpEcho v kind) \/ h = withAppHeaders httpHealth ->
     fst (fst (httpLog stdoutW h W RW w r world)) = fst (fst (h W RW w r world))
     /\ snd (httpLog stdoutW h W RW w r world) = snd (h W RW w r world)
     /\ environ (snd (fst (httpLog stdoutW h W RW w r world))) = environ world
     /\ stderr (snd (fst (httpLog stdoutW h W RW w r world))) = stderr world).
Proof.
  intros h Hh. unfold stdoutW.
  assert (P : (exists s, prints r (snd (time_Now world)) h s /\ prints r world h s)
              \/ (kind <> "text"%string /\ kind <> "env"%string
                  /\ h = withAppHeaders (httpEcho v kind))).
  { destruct Hh as [-> | ->].
    - destruct (String.eqb_spec kind "text") as [->|Ht];
        [|destruct (String.eqb_spec kind "env") as [->|He]].
      + left. exists v. split; apply prints_text.
      + left. exists (resolved v world). split; [|apply prints_env].
        apply (prints_env r (snd (time_Now world)) v).
      + right. auto.
    - left. exists healthBody. split; apply prints_health. }
  destruct P as [(s & P1 & P2) | (Ht & He & ->)].
  - rewrite (httpLog_prints h s W RW w r world P1), (P2 W RW w). repeat split.
  - rewrite (httpLog_eq _ _ _ w r world (snd (time_Now world)) (fresh w)
               (Panicked "something went wrong, not cool!")).
    + unfold withAppHeaders. rewrite httpEcho_other_eq by assumption. repeat split.
    + unfold withAppHeaders. now apply httpEcho_other_eq.
Qed.

Lemma httpLog_transparent_witness :
  let h := withAppHeaders (httpEcho "HOME" "env") in
  let r := exampleRequest "GET" "/" in
  fst (fst (httpLog stdoutW h http.response _ http.newResponse r exampleWorld))
  = fst (fst (h http.response _ http.newResponse r exampleWorld))
  /\ snd (httpLog stdoutW h http.response _ http.newResponse r exampleWorld)
     = snd (h http.response _ http.newResponse r exampleWorld)
  /\ environ (snd (fst (httpLog stdoutW h http.response _ http.newResponse r exampleWorld)))
     = environ exampleWorld
  /\ stderr (snd (fst (httpLog stdoutW h http.response _ http.newResponse r exampleWorld)))
     = stderr exampleWorld.
Proof.
  apply (httpLog_transparent "HOME" "env" http.response _ http.newResponse
           (exampleRequest "GET" "/") exampleWorld
           (withAppHeaders (httpEcho "HOME" "env"))).
  left. reflexivity.
Defined.

(** ** Start-up, further *)



(** ** Routing, further *)

(** X10. The routes of [main], as the mux of net/http reads them.  A
    request for the exact path [/health] gets the health handler.  A request
    for any other path that starts with a slash gets the logged echo handler
    if its path is in canonical form ([/health/] and [/healthz] are) or its
    method is [CONNECT].  Any other request whose path is not in canonical
    form ([//health], [/a/../health]) is redirected by the mux to the
    canonical form and reaches no handler of the program; and a [CONNECT]
    request whose path does not start with a slash finds nothing. *)
Theorem routes_spec (v kind : string) (r : http.Request) :
  (url.Path (http.URL r) = "/health"%string ->
     http.ServeMux_Handler (routes v kind) r = http.Handle healthEntry)
  /\ (http.Method r = "CONNECT"%string
      \/ http.cleanPath (url.Path (http.URL r)) = url.Path (http.URL r) ->
      String.prefix "/" (url.Path (http.URL r)) = true ->
      url.Path (http.URL r) <> "/health"%string ->
      http.ServeMux_Handler (routes v kind) r = http.Handle (rootEntry v kind))
  /\ (http.Method r <> "CONNECT"%string ->
      http.cleanPath (url.Path (http.URL r)) <> url.Path (http.URL r) ->
      http.ServeMux_Handler (routes v kind) r
      = http.RedirectTo (http.cleanPath (url.Path (http.URL r)))
      /\ forall (W : Type) (RW : http.ResponseWriter W) (w : W) (world : World),
           http.ServeMux_ServeHTTP (routes v kind) W w r world = None)
  /\ (http.Method r = "CONNECT"%string ->
      String.prefix "/" (url.Path (http.URL r)) = false ->
      http.ServeMux_Handler (routes v kind) r = http.NotFound).
Proof.
  split; [apply routes_Handler_health|]. split; [|split].
  - intros Hcanon Hprefix Hpath.
    rewrite (routes_dispatched v kind r (routes_canonical v kind r Hcanon Hprefix)).
    unfold echoed. destruct (String.eqb_spec (url.Path (http.URL r)) "/health");
      [contradiction|reflexivity].
  - intros Hm Hc.
    assert (E : http.ServeMux_Handler (routes v kind) r
                = http.RedirectTo (http.cleanPath (url.Path (http.URL r)))).
    { rewrite routes_Handler.
      destruct (String.eqb_spec (http.Method r) "CONNECT"); [contradiction|].
      destruct (String.eqb_spec (http.cleanPath (url.Path (http.URL r)))
                  (url.Path (http.URL r))); [contradiction|reflexivity]. }
    split; [exact E|]. intros W RW w world.
    unfold http.ServeMux_ServeHTTP. now rewrite E.
  - intros Hm Hprefix. rewrite routes_Handler, Hm. cbn [String.eqb Ascii.eqb Bool.eqb].
    unfold http.ServeMux_handler. rewrite routes_match, Hprefix.
    destruct (String.eqb_spec (url.Path (http.URL r)) "/health") as [E|_];
      [rewrite E in Hprefix; discriminate Hprefix|reflexivity].
Qed.

Lemma routes_spec_witness :
  http.ServeMux_Handler (routes "hi" "text") (exampleRequest "GET" "/a/../health")
  = http.RedirectTo (http.cleanPath "/a/../health")
  /\ forall (W : Type) (RW : http.ResponseWriter W) (w : W) (world : World),
       http.ServeMux_ServeHTTP (routes "hi" "text") W w
         (exampleRequest "GET" "/a/../health") world = None.
Proof.
  apply (proj1 (proj2 (proj2 (routes_spec "hi" "text"
                                (exampleRequest "GET" "/a/../health")))));
    discriminate.
Defined.

(** ** The server and its clients *)



(** X12. Any number of requests.  When the handlers of a server started by
    [main] have answered a sequence of requests that its mux dispatches to
    them, the access log has grown by one write for each request that was
    not for [/health] and by nothing else, the clock has been read twice for
    each of them, the environment and the error stream are as before, and
    for every request the handler has written the status 200 to the response
    object and has returned. *)
Theorem serveAll_spec (cl : CommandLine) (world0 world1 : World) (addr : string)
  (mux : http.ServeMux) (rs : list http.Request) (world : World) :
  main cl world0 = (world1, ListenAndServe addr mux) ->
  Forall (fun r => dispatched mux r = true) rs ->
  let world' := fst (serveAll mux rs world) in
  let answers := snd (serveAll mux rs world) in
  len (stdout world') = len (stdout world) + len (List.filter echoed rs)
  /\ Z.of_nat (ticks world') = Z.of_nat (ticks world) + 2 * len (List.filter echoed rs)
  /\ environ world' = environ world
  /\ stderr world' = stderr world
  /\ len answers = len rs
  /\ Forall (fun a => exists w, a = Some (w, Returned) /\ http.status w = 200) answers.
Proof.
  intros Hmain. destruct (main_kind _ _ _ _ _ Hmain) as (v & kind & Hkind & _ & ->).
  clear Hmain. cbv zeta. revert world.
  induction rs as [|r rs IH]; intros world HF.
  - cbn [serveAll fst snd List.filter]. unfold len. cbn [List.length].
    repeat split; try lia. constructor.
  - inversion HF as [|r' rs' Hr Hrs]; subst r' rs'.
    cbn [serveAll]. rewrite serve_routes by assumption.
    set (world2 := if echoed r then logged 2 _ world else world).
    specialize (IH world2 Hrs).
    destruct (serveAll (routes v kind) rs world2) as [world3 answers].
    cbn [fst snd] in *. destruct IH as (Hout & Hticks & Henv & Herr & Hlen & Hall).
    assert (H2 : len (stdout world2) = len (stdout world) + (if echoed r then 1 else 0)
                 /\ Z.of_nat (ticks world2)
                    = Z.of_nat (ticks world) + 2 * (if echoed r then 1 else 0)
                 /\ environ world2 = environ world /\ stderr world2 = stderr world).
    { subst world2. destruct (echoed r); cbn [logged stdout ticks environ stderr].
      - unfold len. rewrite length_app. cbn [List.length]. repeat split; lia.
      - repeat split; lia. }
    destruct H2 as (H2out & H2ticks & H2env & H2err).
    cbn [List.filter]. unfold len in *. cbn [List.length].
    repeat split.
    + destruct (echoed r); cbn [List.length]; lia.
    + destruct (echoed r); cbn [List.length]; lia.
    + congruence.
    + congruence.
    + lia.
    + constructor; [|assumption]. eexists. split; [reflexivity|].
      reflexivity.
Qed.

Lemma serveAll_spec_witness :
  let rs := [exampleRequest "GET" "/"; exampleRequest "GET" "/health";
             exampleRequest "POST" "/healthz"] in
  let world' := fst (serveAll (routes "hi" "text") rs exampleWorld) in
  let answers := snd (serveAll (routes "hi" "text") rs exampleWorld) in
  len (stdout world') = len (stdout exampleWorld) + len (List.filter echoed rs)
  /\ Z.of_nat (ticks world')
     = Z.of_nat (ticks exampleWorld) + 2 * len (List.filter echoed rs)
  /\ environ world' = environ exampleWorld
  /\ stderr world' = stderr exampleWorld
  /\ len answers = len rs
  /\ Forall (fun a => exists w, a = Some (w, Returned) /\ http.status w = 200) answers.
Proof.
  apply (serveAll_spec (commandLine "hi" "" []) exampleWorld
           (listening ":5678" exampleWorld) ":5678"%string
           (routes "hi" "text")
           [exampleRequest "GET" "/"; exampleRequest "GET" "/health";
            exampleRequest "POST" "/healthz"] exampleWorld eq_refl).
  repeat constructor.
Defined.

Example serveAll_example :
  len (stdout (fst (serveAll (routes "hi" "text")
                      [exampleRequest "GET" "/"; exampleRequest "GET" "/health";
                       exampleRequest "POST" "/healthz"] exampleWorld))) = 2.
Proof. reflexivity. Qed.

(** X14. A panic is logged and passed on.  When the echo handler has a kind
    other than [text] and [env], the wrapped handler still adds its one line
    to the access log, with status 0 and length 0 since nothing was written,
    leaves the response writer untouched, and ends with the panic of the
    echo handler. *)
Theorem httpLog_panic (v kind : string) (W : Type) (RW : http.ResponseWriter W)
  (w : W) (r : http.Request) (world : World) :
  kind <> "text"%string -> kind <> "env"%string ->
  httpLog stdoutW (withAppHeaders (httpEcho v kind)) W RW w r world
  = (w,
     logged 2
       (logLine (clock world (S (ticks world))) r 0 0
          (time.Sub (clock world (S (ticks world))) (clock world (ticks world))))
       world,
     Panicked "something went wrong, not cool!").
Proof.
  intros Ht He. unfold stdoutW.
  rewrite (httpLog_eq _ _ _ w r world (snd (time_Now world)) (fresh w)
             (Panicked "something went wrong, not cool!")).
  - reflexivity.
  - unfold withAppHeaders. now apply httpEcho_other_eq.
Qed.

Lemma httpLog_panic_witness :
  httpLog stdoutW (withAppHeaders (httpEcho "v" "bogus")) http.response _
    http.newResponse (exampleRequest "GET" "/") exampleWorld
  = (http.newResponse,
     logged 2
       (logLine (clock exampleWorld (S (ticks exampleWorld))) (exampleRequest "GET" "/") 0 0
          (time.Sub (clock exampleWorld (S (ticks exampleWorld)))
             (clock exampleWorld (ticks exampleWorld))))
       exampleWorld,
     Panicked "something went wrong, not cool!").
Proof.
  apply (httpLog_panic "v" "bogus" http.response _ http.newResponse
           (exampleRequest "GET" "/") exampleWorld); discriminate.
Defined.
